(** * Progress tracking and adaptive difficulty of the children's game shell

    A shallow embedding of [src/core/game_manager.py] (classes
    [GameProgress] and [GameManager]) together with the constants of
    [ADAPTIVE_SETTINGS] from [src/config.py], and of the part of
    [src/ui/enhanced_settings_screen.py] that reads and writes the
    profile (opening the screen, the sliders, Save).

    - The JSON-shaped profile [self.data] is a record whose keys are all
      optional, the way a loaded save file may or may not carry them;
      the [games] and [difficulty_settings] dictionaries are [gmap]s
      keyed by the game-type id.
    - Python [int] is [Z]; Python [float] is IEEE-754 binary64, modelled
      by [spec_float] with the operations of [SpecFloat] at precision 53.
    - Methods run in a state-and-exception monad over [World]: the
      in-memory objects plus the save file.  A raised exception keeps
      the mutations made before it, as in Python.
    - [datetime.now()] is an argument ([now], microseconds); the date of
      [dt.date.today()] is an argument ([today]).  Durations are kept
      in microseconds.
    - Strings are ASCII.  Values in the file have the type their key is
      used at (counters are integers, [won] is a boolean, and so on). *)

From Stdlib Require Import ZArith QArith Qround Ascii String List Bool Lia.
From Stdlib Require Import Floats.SpecFloat.
From Stdlib Require Import DecimalString.
From stdpp Require Import base option list strings gmap.

Local Open Scope string_scope.
Local Open Scope list_scope.
Local Open Scope Z_scope.

(** ** Exceptions and outcomes *)

Inductive exn : Type :=
| KeyError (key : string)
| ZeroDivisionError
| OverflowError
| ValueError.

Inductive outcome (A : Type) : Type :=
| Ok (a : A)
| Raise (e : exn).
Arguments Ok {A} a.
Arguments Raise {A} e.

#[global] Instance outcome_ret : MRet outcome := fun A a => Ok a.
#[global] Instance outcome_bind : MBind outcome := fun A B f m =>
  match m with
  | Ok a => f a
  | Raise e => Raise e
  end.

(** ** Python numbers *)

Module PyFloat.

Definition prec : Z := 53.
Definition emax : Z := 1024.

Definition fmul := SFmul prec emax.
Definition fadd := SFadd prec emax.
Definition fdiv := SFdiv prec emax.

(** An integer as an (unrounded) mantissa with exponent 0. *)
Definition raw_of_Z (z : Z) : spec_float :=
  match z with
  | Z0 => S754_zero false
  | Zpos p => S754_finite false p 0
  | Zneg p => S754_finite true p 0
  end.

(** [float(z)]: nearest double, ties to even; too large raises. *)
Definition of_int (z : Z) : outcome spec_float :=
  match binary_normalize prec emax z 0 false with
  | S754_infinity _ => Raise OverflowError
  | f => Ok f
  end.

(** [a / b] on two ints: the correctly rounded quotient. *)
Definition truediv (a b : Z) : outcome spec_float :=
  if b =? 0 then Raise ZeroDivisionError
  else match fdiv (raw_of_Z a) (raw_of_Z b) with
       | S754_infinity _ => Raise OverflowError
       | f => Ok f
       end.

(** A decimal literal [n / d] (d a power of ten), correctly rounded:
    [literal 85 100] is the double written [0.85]. *)
Definition literal (n d : positive) : spec_float :=
  fdiv (S754_finite false n 0) (S754_finite false d 0).

(** [int(f)]: truncation toward zero. *)
Definition to_int (f : spec_float) : outcome Z :=
  match f with
  | S754_zero _ => Ok 0
  | S754_finite s m e => Ok (cond_Zopp s (Z.shiftl (Zpos m) e))
  | S754_infinity _ => Raise OverflowError
  | S754_nan => Raise ValueError
  end.

Definition ltb := SFltb.
Definition leb := SFleb.

(** The exact rational value of a finite double. *)
Definition to_Q (f : spec_float) : Q :=
  match f with
  | S754_finite s m e =>
      let v := if 0 <=? e then inject_Z (Zpos m * 2 ^ e)
               else Qmake (Zpos m) (Z.to_pos (2 ^ (- e))) in
      if s then Qopp v else v
  | _ => 0%Q
  end.

End PyFloat.

(** A Python number as [get_game_stats] may return it: the int [0] or a
    float. *)
Inductive number : Type :=
| PyInt (z : Z)
| PyFloatV (f : spec_float).

Definition number_to_Q (n : number) : Q :=
  match n with
  | PyInt z => inject_Z z
  | PyFloatV f => PyFloat.to_Q f
  end.

(** ** config.py *)

Module ADAPTIVE_SETTINGS.
Definition success_rate_target : spec_float := PyFloat.literal 7 10.
Definition min_games_before_adjust : nat := 5.
Definition difficulty_increase_threshold : spec_float := PyFloat.literal 85 100.
Definition difficulty_decrease_threshold : spec_float := PyFloat.literal 55 100.
End ADAPTIVE_SETTINGS.

(** ** The persisted data *)

Record HistoryEntry : Type := {
  timestamp : Z;
  won : bool;
  score : Z;
  time_taken : Z;
  difficulty : Z;
  details : option (list (string * string))
}.

Record GameRecord : Type := {
  level : option Z;
  games_played : option Z;
  games_won : option Z;
  current_difficulty : option Z;
  history : option (list HistoryEntry)
}.

Record Profile : Type := {
  player_name : option string;
  created_at : option Z;
  total_coins : option Z;
  total_stars : option Z;
  games : option (gmap string GameRecord);
  achievements : option (list string);
  daily_streak : option Z;
  last_played : option Z;
  birth_date : option string;
  difficulty_settings : option (gmap string Z)
}.

(** The save file: missing, present but not loadable, or holding a JSON
    object. *)
Inductive file_state : Type :=
| FileAbsent
| FileUnreadable
| FileJson (p : Profile).

Record Session : Type := {
  type : string;
  start_time : Z;
  session_score : Z;
  completed : bool
}.

Record World : Type := {
  data : Profile;
  current_game : option Session;
  sound_enabled : bool;
  music_enabled : bool;
  save_file : file_state;
  save_count : nat
}.

(** ** The method monad *)

Definition M (A : Type) : Type := World -> outcome A * World.

#[global] Instance M_ret : MRet M := fun A a w => (Ok a, w).
#[global] Instance M_bind : MBind M := fun A B f m w =>
  match m w with
  | (Ok a, w') => f a w'
  | (Raise e, w') => (Raise e, w')
  end.

Definition with_data (p : Profile) (w : World) : World :=
  {| data := p; current_game := current_game w;
     sound_enabled := sound_enabled w; music_enabled := music_enabled w;
     save_file := save_file w; save_count := save_count w |}.

Definition with_current_game (g : option Session) (w : World) : World :=
  {| data := data w; current_game := g;
     sound_enabled := sound_enabled w; music_enabled := music_enabled w;
     save_file := save_file w; save_count := save_count w |}.

(** The world after [json.dump(self.data, f)]. *)
Definition written (w : World) : World :=
  {| data := data w; current_game := current_game w;
     sound_enabled := sound_enabled w; music_enabled := music_enabled w;
     save_file := FileJson (data w); save_count := S (save_count w) |}.

Definition raise {A} (e : exn) : M A := fun w => (Raise e, w).
Definition lift {A} (o : outcome A) : M A := fun w => (o, w).
Definition get_data : M Profile := fun w => (Ok (data w), w).
Definition put_data (p : Profile) : M unit := fun w => (Ok tt, with_data p w).
Definition get_current_game : M (option Session) := fun w => (Ok (current_game w), w).
Definition put_current_game (g : option Session) : M unit :=
  fun w => (Ok tt, with_current_game g w).
Definition write_file : M unit := fun w => (Ok tt, written w).

(** [d[key]]: a missing key raises [KeyError]. *)
Definition subscript {A} (key : string) (o : option A) : M A :=
  match o with
  | Some a => mret a
  | None => raise (KeyError key)
  end.

(** ** List slices *)

(** [l[-n:]] for a positive constant [n]: the last [n] elements, the
    whole list when it is shorter. *)
Definition slice_last {A} (n : nat) (l : list A) : list A :=
  drop (length l - n) l.

(** ** class GameProgress *)

Definition zero_record : GameRecord :=
  {| level := Some 1; games_played := Some 0; games_won := Some 0;
     current_difficulty := Some 1; history := Some [] |}.

Definition default_data (now : Z) : Profile :=
  {| player_name := Some "小朋友";
     created_at := Some now;
     total_coins := Some 0;
     total_stars := Some 0;
     games := Some (<["find_difference" := zero_record]>
                   (<["counting" := zero_record]>
                   (<["simple_math" := zero_record]>
                   (<["music_theory" := zero_record]>
                   (<["staff_reading" := zero_record]>
                   (<["rhythm" := zero_record]>
                   (<["interval" := zero_record]> ∅)))))));
     achievements := Some [];
     daily_streak := Some 0;
     last_played := Some now;
     birth_date := None;
     difficulty_settings := None |}.

(** [_load_progress]: the parsed file when it exists and loads, the
    default structure otherwise. *)
Definition _load_progress (f : file_state) (now : Z) : Profile :=
  match f with
  | FileJson p => p
  | FileUnreadable | FileAbsent => default_data now
  end.

Definition set_last_played (v : Z) (p : Profile) : Profile :=
  {| player_name := player_name p; created_at := created_at p;
     total_coins := total_coins p; total_stars := total_stars p;
     games := games p; achievements := achievements p;
     daily_streak := daily_streak p; last_played := Some v;
     birth_date := birth_date p; difficulty_settings := difficulty_settings p |}.

Definition set_games (g : gmap string GameRecord) (p : Profile) : Profile :=
  {| player_name := player_name p; created_at := created_at p;
     total_coins := total_coins p; total_stars := total_stars p;
     games := Some g; achievements := achievements p;
     daily_streak := daily_streak p; last_played := last_played p;
     birth_date := birth_date p; difficulty_settings := difficulty_settings p |}.

Definition set_total_coins (v : Z) (p : Profile) : Profile :=
  {| player_name := player_name p; created_at := created_at p;
     total_coins := Some v; total_stars := total_stars p;
     games := games p; achievements := achievements p;
     daily_streak := daily_streak p; last_played := last_played p;
     birth_date := birth_date p; difficulty_settings := difficulty_settings p |}.

Definition set_total_stars (v : Z) (p : Profile) : Profile :=
  {| player_name := player_name p; created_at := created_at p;
     total_coins := total_coins p; total_stars := Some v;
     games := games p; achievements := achievements p;
     daily_streak := daily_streak p; last_played := last_played p;
     birth_date := birth_date p; difficulty_settings := difficulty_settings p |}.

Definition save_progress (now : Z) : M unit :=
  d ← get_data;
  put_data (set_last_played now d);;
  write_file.

(** The three ids that the music game was split into. *)
Definition new_game_types : list string := ["staff_reading"; "rhythm"; "interval"].

Definition is_in {V} (k : string) (m : gmap string V) : bool :=
  bool_decide (is_Some (m !! k)).

(** One turn of either [for game_type in [...]] loop of [_migrate_data]:
    [if game_type not in games: games[game_type] = fresh]. *)
Definition backfill (fresh : GameRecord) (games : gmap string GameRecord)
    (game_type : string) : gmap string GameRecord :=
  if is_in game_type games then games else <[game_type := fresh]> games.

Definition split_record (music_data : GameRecord) : GameRecord :=
  {| level := Some (default 1 (level music_data));
     games_played := Some (default 0 (games_played music_data) `div` 3);
     games_won := Some (default 0 (games_won music_data) `div` 3);
     current_difficulty := Some (default 1 (current_difficulty music_data));
     history := Some [] |}.

(** [_migrate_data].  [games = self.data.get('games', {})] is the profile's
    own dictionary when the key is there, so the loops write into the
    profile; when the key is missing it is a fresh dictionary that
    nothing else refers to, and what the loops put there is dropped. *)
Definition _migrate_data (now : Z) : M unit :=
  d ← get_data;
  let games_ := default ∅ (games d) in
  if is_in "staff_reading" games_ && is_in "rhythm" games_ && is_in "interval" games_
  then mret tt
  else
    let games' :=
      match games_ !! "music_theory" with
      | Some music_data => foldl (backfill (split_record music_data)) games_ new_game_types
      | None => foldl (backfill zero_record) games_ new_game_types
      end in
    (match games d with
     | Some _ => put_data (set_games games' d)
     | None => mret tt
     end);;
    save_progress now.

(** [GameProgress.__init__] on a given save file. *)
Definition GameProgress_init (f : file_state) (now : Z) : outcome unit * World :=
  _migrate_data now
    {| data := _load_progress f now; current_game := None;
       sound_enabled := true; music_enabled := true;
       save_file := f; save_count := 0 |}.

Definition set_games_played (v : Z) (r : GameRecord) : GameRecord :=
  {| level := level r; games_played := Some v; games_won := games_won r;
     current_difficulty := current_difficulty r; history := history r |}.
Definition set_games_won (v : Z) (r : GameRecord) : GameRecord :=
  {| level := level r; games_played := games_played r; games_won := Some v;
     current_difficulty := current_difficulty r; history := history r |}.
Definition set_current_difficulty (v : Z) (r : GameRecord) : GameRecord :=
  {| level := level r; games_played := games_played r; games_won := games_won r;
     current_difficulty := Some v; history := history r |}.
Definition set_history (v : list HistoryEntry) (r : GameRecord) : GameRecord :=
  {| level := level r; games_played := games_played r; games_won := games_won r;
     current_difficulty := current_difficulty r; history := Some v |}.

(** [self.data['games'][game_type]] *)
Definition game_data_of (game_type : string) : M GameRecord :=
  d ← get_data;
  g ← subscript "games" (games d);
  subscript game_type (g !! game_type).

(** A store into the dictionary object [game_data] that was read from
    [self.data['games'][game_type]]. *)
Definition update_game_data (game_type : string) (f : GameRecord -> GameRecord) : M unit :=
  d ← get_data;
  g ← subscript "games" (games d);
  r ← subscript game_type (g !! game_type);
  put_data (set_games (<[game_type := f r]> g) d).

Definition wins (l : list HistoryEntry) : nat := length (filter (fun g => won g = true) l).

Definition _adjust_difficulty (game_type : string) : M unit :=
  game_data ← game_data_of game_type;
  history_ ← subscript "history" (history game_data);
  if (length history_ <? ADAPTIVE_SETTINGS.min_games_before_adjust)%nat then mret tt
  else
    let recent_games := slice_last ADAPTIVE_SETTINGS.min_games_before_adjust history_ in
    success_rate ← lift (PyFloat.truediv (Z.of_nat (wins recent_games))
                                         (Z.of_nat (length recent_games)));
    current_difficulty_ ← subscript "current_difficulty" (current_difficulty game_data);
    if PyFloat.leb ADAPTIVE_SETTINGS.difficulty_increase_threshold success_rate then
      update_game_data game_type (set_current_difficulty (Z.min (current_difficulty_ + 1) 10))
    else if PyFloat.leb success_rate ADAPTIVE_SETTINGS.difficulty_decrease_threshold then
      update_game_data game_type (set_current_difficulty (Z.max (current_difficulty_ - 1) 1))
    else mret tt.

(** [if details:] is false for [None] and for an empty dictionary. *)
Definition truthy_details (details : option (list (string * string)))
    : option (list (string * string)) :=
  match details with
  | Some (_ :: _) => details
  | _ => None
  end.

(** The dictionary [history_entry] of [update_game_result], with the
    [details] key set only when [details] is truthy. *)
Definition history_entry_of (won : bool) (score time_taken : Z)
    (details : option (list (string * string))) (now current_difficulty_ : Z)
    : HistoryEntry :=
  {| timestamp := now; won := won; score := score; time_taken := time_taken;
     difficulty := current_difficulty_; details := truthy_details details |}.

Definition update_game_result (game_type : string) (won : bool) (score : Z)
    (time_taken : Z) (details : option (list (string * string))) (now : Z) : M unit :=
  game_data ← game_data_of game_type;
  played ← subscript "games_played" (games_played game_data);
  update_game_data game_type (set_games_played (played + 1));;
  (if won then
     w ← subscript "games_won" (games_won game_data);
     update_game_data game_type (set_games_won (w + 1))
   else mret tt);;
  current_difficulty_ ← subscript "current_difficulty" (current_difficulty game_data);
  let history_entry :=
    history_entry_of won score time_taken details now current_difficulty_ in
  history_ ← subscript "history" (history game_data);
  update_game_data game_type (set_history (history_ ++ [history_entry]));;
  (if (50 <? length (history_ ++ [history_entry]))%nat then
     update_game_data game_type (set_history (slice_last 50 (history_ ++ [history_entry])))
   else mret tt);;
  _adjust_difficulty game_type;;
  save_progress now.

Record Stats : Type := {
  stats_level : Z;
  stats_games_played : Z;
  stats_games_won : Z;
  win_rate : number;
  stats_current_difficulty : Z;
  recent_performance : list bool
}.

Definition _get_recent_performance (game_type : string) (n : nat) : M (list bool) :=
  game_data ← game_data_of game_type;
  history_ ← subscript "history" (history game_data);
  mret (map won (slice_last n history_)).

Definition get_game_stats (game_type : string) : M Stats :=
  game_data ← game_data_of game_type;
  total ← subscript "games_played" (games_played game_data);
  won_ ← subscript "games_won" (games_won game_data);
  level_ ← subscript "level" (level game_data);
  rate ← (if 0 <? total then f ← lift (PyFloat.truediv won_ total); mret (PyFloatV f)
          else mret (PyInt 0));
  current_difficulty_ ← subscript "current_difficulty" (current_difficulty game_data);
  recent ← _get_recent_performance game_type 10;
  mret {| stats_level := level_; stats_games_played := total; stats_games_won := won_;
          win_rate := rate; stats_current_difficulty := current_difficulty_;
          recent_performance := recent |}.

Definition add_coins (amount : Z) (now : Z) : M unit :=
  d ← get_data;
  c ← subscript "total_coins" (total_coins d);
  put_data (set_total_coins (c + amount) d);;
  save_progress now.

Definition add_stars (amount : Z) (now : Z) : M unit :=
  d ← get_data;
  s ← subscript "total_stars" (total_stars d);
  put_data (set_total_stars (s + amount) d);;
  save_progress now.

(** ** Dates *)

Record date : Type := { year : Z; month : Z; day : Z }.

Definition is_leap (y : Z) : bool :=
  (y mod 4 =? 0) && (negb (y mod 100 =? 0) || (y mod 400 =? 0)).

Definition days_in_month (y m : Z) : Z :=
  if m =? 2 then (if is_leap y then 29 else 28)
  else if (m =? 4) || (m =? 6) || (m =? 9) || (m =? 11) then 30
  else 31.

(** [dt.date(y, m, d)]: [None] stands for the [ValueError] of an
    out-of-range field. *)
Definition make_date (y m d : Z) : option date :=
  if (1 <=? y) && (y <=? 9999) && (1 <=? m) && (m <=? 12)
     && (1 <=? d) && (d <=? days_in_month y m)
  then Some {| year := y; month := m; day := d |}
  else None.

(** [s.split('-')] *)
Fixpoint split_dash (s : string) : list string :=
  match s with
  | EmptyString => [EmptyString]
  | String c s' =>
      if Ascii.eqb c "-"%char then EmptyString :: split_dash s'
      else match split_dash s' with
           | h :: t => String c h :: t
           | [] => [String c EmptyString]
           end
  end.

(** The characters [int] skips around a number (ASCII part). *)
Definition is_space (c : ascii) : bool :=
  let n := nat_of_ascii c in
  ((9 <=? n) && (n <=? 13) || (n =? 32))%nat.

Definition digit_value (c : ascii) : option Z :=
  let n := nat_of_ascii c in
  if ((48 <=? n) && (n <=? 57))%nat then Some (Z.of_nat n - 48) else None.

Fixpoint lstrip (s : string) : string :=
  match s with
  | String c s' => if is_space c then lstrip s' else s
  | EmptyString => s
  end.

(** Digits, with single underscores allowed between two digits, then
    only trailing spaces.  [acc] is the value so far, [prev] tells
    whether the previous character was a digit. *)
Fixpoint digits_from (s : string) (acc : Z) (prev : bool) : option Z :=
  match s with
  | EmptyString => if prev then Some acc else None
  | String c s' =>
      match digit_value c with
      | Some v => digits_from s' (10 * acc + v) true
      | None =>
          if Ascii.eqb c "_"%char then
            (if prev then
               match s' with
               | String c' _ =>
                   match digit_value c' with
                   | Some _ => digits_from s' acc false
                   | None => None
                   end
               | EmptyString => None
               end
             else None)
          else if prev && is_space c then
            (if String.eqb (lstrip s') EmptyString then Some acc else None)
          else None
      end
  end.

(** [int(s)] on an ASCII string, base ten; [None] stands for
    [ValueError]. *)
Definition int_of_string (s : string) : option Z :=
  match lstrip s with
  | String c s' =>
      if Ascii.eqb c "+"%char then digits_from s' 0 false
      else if Ascii.eqb c "-"%char then Z.opp <$> digits_from s' 0 false
      else digits_from (String c s') 0 false
  | EmptyString => None
  end.

(** The body of the [try] block up to [birth]: unpacking the split into
    exactly three parts, converting, and building the date. *)
Definition parse_birth_date (birth_date : string) : option date :=
  match split_dash birth_date with
  | [y; m; d] =>
      y' ← int_of_string y;
      m' ← int_of_string m;
      d' ← int_of_string d;
      make_date y' m' d'
  | _ => None
  end.

Definition months_between (today birth : date) : Z :=
  (year today - year birth) * 12 + month today - month birth.

Definition age_table (months : Z) : Z :=
  if months <? 42 then 1
  else if months <? 48 then 2
  else if months <? 54 then 3
  else if months <? 60 then 4
  else if months <? 66 then 5
  else if months <? 72 then 6
  else if months <? 84 then 7
  else if months <? 96 then 8
  else if months <? 108 then 9
  else 10.

(** The value of the local [base_difficulty] when the [try] statement
    of [get_difficulty] is left; the bare [except: pass] keeps the
    default of 5. *)
Definition age_base_difficulty (birth_date : option string) (today : date) : Z :=
  match birth_date with
  | Some (String c s) =>
      match parse_birth_date (String c s) with
      | Some birth => age_table (months_between today birth)
      | None => 5
      end
  | Some EmptyString | None => 5
  end.

(** ** class GameManager *)

Definition start_game (game_type : string) (now : Z) : M unit :=
  put_current_game (Some {| type := game_type; start_time := now;
                            session_score := 0; completed := false |}).

(** [int(base_coins * (1 + difficulty * 0.1))] with [base_coins = 10]. *)
Definition coins_for (difficulty : Z) : outcome Z :=
  base_coins ← PyFloat.of_int 10;
  one ← PyFloat.of_int 1;
  d ← PyFloat.of_int difficulty;
  PyFloat.to_int
    (PyFloat.fmul base_coins (PyFloat.fadd one (PyFloat.fmul d (PyFloat.literal 1 10)))).

Definition end_game (won : bool) (score : Z) (details : option (list (string * string)))
    (now : Z) : M unit :=
  cg ← get_current_game;
  match cg with
  | None => mret tt
  | Some session =>
      let time_taken := now - start_time session in
      update_game_result (type session) won score time_taken details now;;
      (if won then
         game_data ← game_data_of (type session);
         difficulty_ ← subscript "current_difficulty" (current_difficulty game_data);
         coins ← lift (coins_for difficulty_);
         add_coins coins now;;
         if 90 <=? score then add_stars 3 now
         else if 70 <=? score then add_stars 2 now
         else add_stars 1 now
       else mret tt);;
      put_current_game None
  end.

Definition clamp_1_10 (v : Z) : Z := Z.min (Z.max v 1) 10.

(** The win-rate nudge of [get_difficulty] (all-time counters). *)
Definition nudge (base_difficulty : Z) (game_data : option GameRecord) : outcome Z :=
  let played := default 0 (game_data ≫= games_played) in
  if 3 <? played then
    let won_ := default 0 (game_data ≫= games_won) in
    win_rate_ ← PyFloat.truediv won_ played;
    mret (if PyFloat.ltb (PyFloat.literal 9 10) win_rate_ then Z.min (base_difficulty + 2) 10
          else if PyFloat.ltb (PyFloat.literal 8 10) win_rate_ then Z.min (base_difficulty + 1) 10
          else if PyFloat.ltb win_rate_ (PyFloat.literal 2 10) then Z.max (base_difficulty - 2) 1
          else if PyFloat.ltb win_rate_ (PyFloat.literal 3 10) then Z.max (base_difficulty - 1) 1
          else base_difficulty)
  else mret base_difficulty.

Definition get_difficulty (game_type : string) (today : date) : M Z :=
  d ← get_data;
  let difficulty_settings_ := default ∅ (difficulty_settings d) in
  match difficulty_settings_ !! game_type with
  | Some v => mret (clamp_1_10 v)
  | None =>
      let base_difficulty := age_base_difficulty (birth_date d) today in
      g ← subscript "games" (games d);
      let game_data := g !! game_type in
      base_difficulty' ← lift (nudge base_difficulty game_data);
      mret (clamp_1_10 base_difficulty')
  end.

(** * Definitions for the statements *)

Definition game_of (w : World) (game_type : string) : option GameRecord :=
  games (data w) ≫= (fun g => g !! game_type).

(** The world with the record of one game type replaced. *)
Definition store_game (game_type : string) (r : GameRecord) (w : World) : World :=
  match games (data w) with
  | Some g => with_data (set_games (<[game_type := r]> g) (data w)) w
  | None => w
  end.

(** The world after [save_progress]. *)
Definition saved (now : Z) (w : World) : World :=
  written (with_data (set_last_played now (data w)) w).

(** The rule in the words of the specification, over exact rationals:
    the success rate is the number of wins among the last five entries
    divided by five. *)
Definition adjust_rule (old : Z) (h : list HistoryEntry) : Z :=
  if (length h <? 5)%nat then old
  else
    let success_rate := (Z.of_nat (wins (slice_last 5 h)) # 5)%Q in
    if Qle_bool (85 # 100) success_rate then Z.min (old + 1) 10
    else if Qle_bool success_rate (55 # 100) then Z.max (old - 1) 1
    else old.

(** A record with every key present. *)
Definition full_record (lv : option Z) (gp gw cd : Z) (h : list HistoryEntry) : GameRecord :=
  {| level := lv; games_played := Some gp; games_won := Some gw;
     current_difficulty := Some cd; history := Some h |}.

(** The record that one call leaves behind. *)
Definition recorded (lv : option Z) (gp gw cd : Z) (h : list HistoryEntry)
    (e : HistoryEntry) : GameRecord :=
  let h' := slice_last 50 (h ++ [e]) in
  full_record lv (gp + 1) (if won e then gw + 1 else gw) (adjust_rule cd h') h'.

(** The arguments of one [update_game_result] call, with the clock
    reading at the call. *)
Record call : Type := {
  call_won : bool;
  call_score : Z;
  call_time_taken : Z;
  call_details : option (list (string * string));
  call_now : Z
}.

Fixpoint update_game_results (gt : string) (calls : list call) : M unit :=
  match calls with
  | [] => mret tt
  | c :: calls' =>
      update_game_result gt (call_won c) (call_score c) (call_time_taken c)
        (call_details c) (call_now c);;
      update_game_results gt calls'
  end.

(** [e] is the entry made from the arguments of [c]. *)
Definition entry_of_call (c : call) (e : HistoryEntry) : Prop :=
  timestamp e = call_now c /\ won e = call_won c /\ score e = call_score c /\
  time_taken e = call_time_taken c /\ details e = truthy_details (call_details c).

(** The entries that the calls append, in call order, starting from the
    stored difficulty [cd] and the history [h]. *)
Fixpoint entries_of (cd : Z) (h : list HistoryEntry) (calls : list call)
    : list HistoryEntry :=
  match calls with
  | [] => []
  | c :: calls' =>
      let e := history_entry_of (call_won c) (call_score c) (call_time_taken c)
                 (call_details c) (call_now c) cd in
      let h' := slice_last 50 (h ++ [e]) in
      e :: entries_of (adjust_rule cd h') h' calls'
  end.

(** The record given to an id that [_migrate_data] adds. *)
Definition backfill_record (g : gmap string GameRecord) : GameRecord :=
  match g !! "music_theory" with
  | Some music_data => split_record music_data
  | None => zero_record
  end.

(** The dictionary after the loop of [_migrate_data]. *)
Definition migrated_games (g : gmap string GameRecord) : gmap string GameRecord :=
  foldl (backfill (backfill_record g)) g new_game_types.

Definition already_migrated (g : gmap string GameRecord) : bool :=
  is_in "staff_reading" g && is_in "rhythm" g && is_in "interval" g.

(** Every game-type id the program knows. *)
Definition known_game_types : list string :=
  ["find_difference"; "counting"; "simple_math"; "music_theory";
   "staff_reading"; "rhythm"; "interval"].

(** A save file from before the music games: three game types only. *)
Definition first_version_profile : Profile :=
  {| player_name := Some "Mia"; created_at := Some 0;
     total_coins := Some 30; total_stars := Some 4;
     games := Some (<["find_difference" := zero_record]>
                   (<["counting" := zero_record]>
                   (<["simple_math" := zero_record]> ∅)));
     achievements := Some []; daily_streak := Some 0; last_played := Some 0;
     birth_date := None; difficulty_settings := None |}.

(** The counters of a record as the data model has them. *)
Definition counters_in_range (r : option GameRecord) : Prop :=
  0 <= default 0 (r ≫= games_won) <= default 0 (r ≫= games_played).

Definition set_birth_date (v : option string) (p : Profile) : Profile :=
  {| player_name := player_name p; created_at := created_at p;
     total_coins := total_coins p; total_stars := total_stars p;
     games := games p; achievements := achievements p;
     daily_streak := daily_streak p; last_played := last_played p;
     birth_date := v; difficulty_settings := difficulty_settings p |}.

(** ** Sample data *)

Definition sample_entry (w : bool) : HistoryEntry :=
  {| timestamp := 0; won := w; score := 80; time_taken := 30000000;
     difficulty := 5; details := None |}.

Definition four_wins : list HistoryEntry := replicate 4 (sample_entry true).

Definition sample_games (h : list HistoryEntry) : gmap string GameRecord :=
  <["counting" := full_record (Some 1) 4 4 5 h]>
  (<["staff_reading" := zero_record]>
  (<["rhythm" := zero_record]>
  (<["interval" := zero_record]> ∅))).

Definition sample_profile (h : list HistoryEntry) (ds : option (gmap string Z)) : Profile :=
  {| player_name := Some "Mia"; created_at := Some 0;
     total_coins := Some 0; total_stars := Some 0;
     games := Some (sample_games h);
     achievements := Some []; daily_streak := Some 0; last_played := Some 0;
     birth_date := Some "2020-05-17"; difficulty_settings := ds |}.

Definition sample_session : Session :=
  {| type := "counting"; start_time := 0; session_score := 0; completed := false |}.

(** A world in the middle of a counting game played at difficulty 5. *)
Definition sample_world (h : list HistoryEntry) (ds : option (gmap string Z)) : World :=
  {| data := sample_profile h ds; current_game := Some sample_session;
     sound_enabled := true; music_enabled := true;
     save_file := FileJson (sample_profile h ds); save_count := 0 |}.

Definition sample_call : call :=
  {| call_won := true; call_score := 80; call_time_taken := 30000000;
     call_details := None; call_now := 7 |}.

Definition sample_today : date := {| year := 2023; month := 11; day := 1 |}.

(** A world whose profile is the three-game save file. *)
Definition first_version_world : World :=
  {| data := first_version_profile; current_game := None;
     sound_enabled := true; music_enabled := true;
     save_file := FileJson first_version_profile; save_count := 0 |}.

(** * The rest of the progress code and the settings screen *)

(** ** More of class GameProgress *)

Definition with_player_name (v : string) (p : Profile) : Profile :=
  {| player_name := Some v; created_at := created_at p;
     total_coins := total_coins p; total_stars := total_stars p;
     games := games p; achievements := achievements p;
     daily_streak := daily_streak p; last_played := last_played p;
     birth_date := birth_date p; difficulty_settings := difficulty_settings p |}.

Definition set_achievements (v : list string) (p : Profile) : Profile :=
  {| player_name := player_name p; created_at := created_at p;
     total_coins := total_coins p; total_stars := total_stars p;
     games := games p; achievements := Some v;
     daily_streak := daily_streak p; last_played := last_played p;
     birth_date := birth_date p; difficulty_settings := difficulty_settings p |}.

Definition set_difficulty_settings (v : gmap string Z) (p : Profile) : Profile :=
  {| player_name := player_name p; created_at := created_at p;
     total_coins := total_coins p; total_stars := total_stars p;
     games := games p; achievements := achievements p;
     daily_streak := daily_streak p; last_played := last_played p;
     birth_date := birth_date p; difficulty_settings := Some v |}.

Definition unlock_achievement (achievement_id : string) (now : Z) : M unit :=
  d ← get_data;
  unlocked ← subscript "achievements" (achievements d);
  if bool_decide (achievement_id ∈ unlocked) then mret tt
  else
    put_data (set_achievements (unlocked ++ [achievement_id]) d);;
    save_progress now.

Definition get_player_name : M string :=
  d ← get_data;
  subscript "player_name" (player_name d).


(** ** class EnhancedSettingsScreen *)

(** [self.difficulty_settings] is either the very dictionary stored in
    the profile (when the profile had the key as the screen was
    opened) or a dictionary of the screen's own. *)
Inductive settings_ref : Type :=
| Shared
| Own (m : gmap string Z).

Record SettingsScreen : Type := {
  temp_name : string;
  temp_birth_year : string;
  temp_birth_month : string;
  temp_birth_day : string;
  screen_settings : settings_ref;
  slider_values : gmap string Z
}.

(** The ids of [_create_difficulty_sliders], in order. *)
Definition slider_games : list string :=
  ["find_difference"; "counting"; "simple_math"; "staff_reading";
   "rhythm"; "interval"; "drawing"].

(** The default argument of [data.get('difficulty_settings', {...})]. *)
Definition default_difficulty_settings : gmap string Z :=
  list_to_map ((fun g => (g, 5)) <$> slider_games).

(** The dictionary that [self.difficulty_settings] refers to. *)
Definition settings_of (r : settings_ref) (d : Profile) : gmap string Z :=
  match r with
  | Shared => default ∅ (difficulty_settings d)
  | Own m => m
  end.

(** [EnhancedSettingsScreen.__init__], without the geometry. *)
Definition open_settings : M SettingsScreen :=
  name ← get_player_name;
  d ← get_data;
  let ref := match difficulty_settings d with
             | Some _ => Shared
             | None => Own default_difficulty_settings
             end in
  let '(y, m, dd) :=
    match birth_date d with
    | Some (String c s) =>
        match split_dash (String c s) with
        | [y; m; dd] => (y, m, dd)
        | _ => ("", "", "")
        end
    | _ => ("", "", "")
    end in
  mret {| temp_name := name;
          temp_birth_year := y; temp_birth_month := m; temp_birth_day := dd;
          screen_settings := ref;
          slider_values :=
            list_to_map ((fun g => (g, default 5 (settings_of ref d !! g)))
                           <$> slider_games) |}.

Definition slider_width : Z := 300.

(** [max(1, min(10, int(rel_x / width * 10) + 1))] *)
Definition slider_value (rel_x : Z) : outcome Z :=
  q ← PyFloat.truediv rel_x slider_width;
  ten ← PyFloat.of_int 10;
  n ← PyFloat.to_int (PyFloat.fmul q ten);
  mret (Z.max 1 (Z.min 10 (n + 1))).

Definition with_slider (g : string) (v : Z) (r : settings_ref) (s : SettingsScreen)
    : SettingsScreen :=
  {| temp_name := temp_name s;
     temp_birth_year := temp_birth_year s; temp_birth_month := temp_birth_month s;
     temp_birth_day := temp_birth_day s;
     screen_settings := r;
     slider_values := <[g := v]> (slider_values s) |}.

(** The body run in [handle_event] for the slider whose bar contains the
    click, [rel_x] pixels from its left edge: the new level goes into
    the slider and into [self.difficulty_settings], which writes into
    the profile when the dictionary is shared with it. *)
Definition slider_hit (game_id : string) (rel_x : Z) (s : SettingsScreen)
    : M SettingsScreen :=
  new_value ← lift (slider_value rel_x);
  match screen_settings s with
  | Shared =>
      d ← get_data;
      put_data (set_difficulty_settings
                  (<[game_id := new_value]> (default ∅ (difficulty_settings d))) d);;
      mret (with_slider game_id new_value Shared s)
  | Own m =>
      mret (with_slider game_id new_value (Own (<[game_id := new_value]> m)) s)
  end.

(** [str(n)] *)
Definition str_int (n : Z) : string := NilZero.string_of_int (Z.to_int n).

(** [f"{n:02d}"]: zeros after the sign up to a width of two. *)
Definition format_02d (n : Z) : string :=
  let s := str_int (Z.abs n) in
  if n <? 0 then "-" +:+ s
  else if (String.length s <? 2)%nat then "0" +:+ s else s.

(** [f"{year}-{month:02d}-{day:02d}"] *)
Definition format_birth_date (y m d : Z) : string :=
  str_int y +:+ "-" +:+ format_02d m +:+ "-" +:+ format_02d d.

Definition fits_c_int (z : Z) : bool := (- 2 ^ 31 <=? z) && (z <? 2 ^ 31).

(** [datetime.date(y, m, d)] with its two exceptions told apart: a
    field that does not fit a C int raises [OverflowError], one out of
    range raises [ValueError]. *)
Definition date_of (y m d : Z) : outcome date :=
  if fits_c_int y && fits_c_int m && fits_c_int d then
    match make_date y m d with
    | Some dt => Ok dt
    | None => Raise ValueError
    end
  else Raise OverflowError.

(** [a > b] on dates. *)
Definition date_gtb (a b : date) : bool :=
  (year b <? year a)
  || (year a =? year b) && ((month b <? month a)
                            || (month a =? month b) && (day b <? day a)).

(** What the [try] block of [_validate_and_save] decides: the string to
    store, or the rejection ([None]); [OverflowError] is not caught. *)
Definition checked_birth_date (y m d : string) (today : date) : outcome (option string) :=
  match int_of_string y, int_of_string m, int_of_string d with
  | Some year_, Some month_, Some day_ =>
      match date_of year_ month_ day_ with
      | Ok birth =>
          if date_gtb birth today then Ok None
          else
            let months := (year today - year birth) * 12 + month today - month birth in
            if months <? 36 then Ok None
            else if 120 <? months then Ok None
            else Ok (Some (format_birth_date year_ month_ day_))
      | Raise ValueError => Ok None
      | Raise e => Raise e
      end
  | _, _, _ => Ok None
  end.

Definition with_shared (s : SettingsScreen) : SettingsScreen :=
  {| temp_name := temp_name s;
     temp_birth_year := temp_birth_year s; temp_birth_month := temp_birth_month s;
     temp_birth_day := temp_birth_day s;
     screen_settings := Shared;
     slider_values := slider_values s |}.

(** The birth-date part of [_validate_and_save]: [false] stands for
    the [return False] of a rejected date; with one of the three fields
    empty the part is skipped. *)
Definition store_birth_date (s : SettingsScreen) (today : date) : M bool :=
  if negb (String.eqb (temp_birth_year s) "")
     && negb (String.eqb (temp_birth_month s) "")
     && negb (String.eqb (temp_birth_day s) "")
  then
    c ← lift (checked_birth_date (temp_birth_year s) (temp_birth_month s)
                (temp_birth_day s) today);
    match c with
    | Some text =>
        d ← get_data;
        put_data (set_birth_date (Some text) d);;
        mret true
    | None => mret false
    end
  else mret true.

(** [_validate_and_save].  The name is stored before the birth date is
    looked at.  After the store of [self.difficulty_settings] the
    profile and the screen hold the same dictionary. *)
Definition _validate_and_save (s : SettingsScreen) (today : date) (now : Z)
    : M (bool * SettingsScreen) :=
  if String.eqb (temp_name s) "" then mret (false, s)
  else
    d ← get_data;
    put_data (with_player_name (temp_name s) d);;
    stored ← store_birth_date s today;
    if stored : bool then
      d ← get_data;
      put_data (set_difficulty_settings (settings_of (screen_settings s) d) d);;
      save_progress now;;
      mret (true, with_shared s)
    else mret (false, s).

(** ** The state after a run of calls *)

(** The stored difficulty after the calls, from the stored difficulty
    [cd] and the history [h] before them. *)
Fixpoint difficulty_after (cd : Z) (h : list HistoryEntry) (calls : list call) : Z :=
  match calls with
  | [] => cd
  | c :: calls' =>
      let e := history_entry_of (call_won c) (call_score c) (call_time_taken c)
                 (call_details c) (call_now c) cd in
      let h' := slice_last 50 (h ++ [e]) in
      difficulty_after (adjust_rule cd h') h' calls'
  end.

(** How many of the calls report a win. *)
Definition won_calls (calls : list call) : nat :=
  length (filter (fun c => call_won c = true) calls).

(** A history that ends with [k] entries of the same outcome [b]. *)
Definition ends_with (b : bool) (k : nat) (h : list HistoryEntry) : Prop :=
  (k <= length h)%nat /\ Forall (fun e => won e = b) (slice_last k h).

(** A computation that leaves every world as it found it, whether it
    returns or raises. *)
Definition read_only {A} (m : M A) : Prop := forall w, snd (m w) = w.

Fixpoint has_dash (s : string) : bool :=
  match s with
  | EmptyString => false
  | String c s' => Ascii.eqb c "-"%char || has_dash s'
  end.

(** A number that prints without a dash and reads back as itself. *)
Definition prints_and_reads (print : Z -> string) (n : Z) : bool :=
  negb (has_dash (print n))
  && match int_of_string (print n) with
     | Some n' => n' =? n
     | None => false
     end.

(** The ten bands of a slider: thirty pixels to a level. *)
Definition slider_band_ok (rel_x : Z) : bool :=
  match slider_value rel_x with
  | Ok v => v =? rel_x `div` 30 + 1
  | Raise _ => false
  end.

(** ** The settings screen in use *)

(** A run of clicks on slider bars, each at a game id and a column. *)
Fixpoint slider_hits (hits : list (string * Z)) (s : SettingsScreen) : M SettingsScreen :=
  match hits with
  | [] => mret s
  | (game_id, rel_x) :: hits' =>
      s' ← slider_hit game_id rel_x s;
      slider_hits hits' s'
  end.

(** A click that [collidepoint] lets through: on one of the seven
    sliders, at a column of its bar. *)
Definition on_a_slider (hit : string * Z) : Prop :=
  hit.1 ∈ slider_games /\ 0 <= hit.2 < slider_width.

(** Every slider shows what [self.difficulty_settings] holds for its
    game, and 5 where the dictionary has no entry. *)
Definition sliders_agree (s : SettingsScreen) (d : Profile) : Prop :=
  forall g, g ∈ slider_games ->
    slider_values s !! g = Some (default 5 (settings_of (screen_settings s) d !! g)).

(** The three birth fields are filled in. *)
Definition birth_fields_filled (s : SettingsScreen) : bool :=
  negb (String.eqb (temp_birth_year s) "")
  && negb (String.eqb (temp_birth_month s) "")
  && negb (String.eqb (temp_birth_day s) "").

(** Field texts short enough for [int] to read them in every version
    of the interpreter (since 3.11 it refuses more than 4300 digits). *)
Definition fields_within_limit (s : SettingsScreen) : Prop :=
  (String.length (temp_birth_year s) <= 4300)%nat /\
  (String.length (temp_birth_month s) <= 4300)%nat /\
  (String.length (temp_birth_day s) <= 4300)%nat.

(** A dictionary of the screen's own with a level for each slider. *)
Definition own_levels (s : SettingsScreen) : Prop :=
  exists m, screen_settings s = Own m /\
    forall g, g ∈ slider_games -> exists v, m !! g = Some v /\ 1 <= v <= 10.

(** ** More sample data *)

(** The counting record of the sample profile without its games_won
    key. *)
Definition record_without_games_won : GameRecord :=
  {| level := Some 1; games_played := Some 4; games_won := None;
     current_difficulty := Some 5; history := Some four_wins |}.

(** A save file from the time of the single music game. *)
Definition music_theory_games : gmap string GameRecord :=
  <["counting" := zero_record]>
  (<["music_theory" := full_record (Some 2) 7 5 3 four_wins]> ∅).

Definition music_theory_world : World :=
  with_data (set_games music_theory_games first_version_profile) first_version_world.

(** The settings screen as opened on the three-game profile, with a
    birth date typed in. *)
Definition sample_screen (year_ : string) : SettingsScreen :=
  {| temp_name := "Mia";
     temp_birth_year := year_; temp_birth_month := "5"; temp_birth_day := "17";
     screen_settings := Own default_difficulty_settings;
     slider_values := default_difficulty_settings |}.

Definition sample_hits : list (string * Z) :=
  [("counting", 157); ("rhythm", 0); ("counting", 299)].

(** * Properties *)

(** ** Running the monad *)

Lemma bind_run {A B} (m : M A) (f : A -> M B) (w : World) :
  (m ≫= f) w =
  match m w with
  | (Ok a, w') => f a w'
  | (Raise e, w') => (Raise e, w')
  end.
Proof. reflexivity. Qed.

Lemma game_of_games w gt r : game_of w gt = Some r -> is_Some (games (data w)).
Proof. unfold game_of. destruct (games (data w)); [eauto | done]. Qed.

Lemma game_of_store_eq gt r w :
  is_Some (games (data w)) -> game_of (store_game gt r w) gt = Some r.
Proof.
  intros [g Hg]. unfold game_of, store_game. rewrite Hg. simpl.
  apply lookup_insert_eq.
Qed.

Lemma game_of_store_ne gt gt' r w :
  gt ≠ gt' -> game_of (store_game gt r w) gt' = game_of w gt'.
Proof.
  intros Hne. unfold game_of, store_game.
  destruct (games (data w)) as [g|] eqn:Hg; simpl; rewrite ?Hg; simpl; [|done].
  by apply lookup_insert_ne.
Qed.

Lemma store_game_twice gt r1 r2 w :
  store_game gt r2 (store_game gt r1 w) = store_game gt r2 w.
Proof.
  unfold store_game. destruct (games (data w)) as [g|] eqn:Hg; simpl; rewrite ?Hg; [|done].
  unfold with_data, set_games; simpl. by rewrite insert_insert_eq.
Qed.

Lemma store_game_same gt r w : game_of w gt = Some r -> store_game gt r w = w.
Proof.
  unfold game_of, store_game. destruct w as [d cg se me sf sc]; simpl.
  destruct d as [pn ca tc ts [g|] ac ds lp bd dset]; simpl; [|done].
  intros H. unfold with_data, set_games; simpl. by rewrite insert_id.
Qed.

Lemma game_data_of_run gt r w :
  game_of w gt = Some r -> game_data_of gt w = (Ok r, w).
Proof.
  unfold game_of, game_data_of. rewrite bind_run. simpl.
  destruct (games (data w)) as [g|]; simpl; [|done].
  intros H. rewrite bind_run. simpl. by rewrite H.
Qed.

Lemma update_game_data_run gt f r w :
  game_of w gt = Some r -> update_game_data gt f w = (Ok tt, store_game gt (f r) w).
Proof.
  unfold game_of, update_game_data, store_game. rewrite bind_run. simpl.
  destruct (games (data w)) as [g|]; simpl; [|done].
  intros H. rewrite !bind_run. simpl. by rewrite H.
Qed.

Lemma save_progress_run now w : save_progress now w = (Ok tt, saved now w).
Proof. reflexivity. Qed.

Lemma game_of_saved now w gt : game_of (saved now w) gt = game_of w gt.
Proof. reflexivity. Qed.

(** ** The post-game adjustment rule *)

Lemma slice_last_length {A} (n : nat) (l : list A) :
  length (slice_last n l) = (length l `min` n)%nat.
Proof. unfold slice_last. rewrite length_drop. lia. Qed.

Lemma wins_le_length (l : list HistoryEntry) : (wins l <= length l)%nat.
Proof. unfold wins. apply length_filter. Qed.

(** On a full window the double comparisons of the code agree with the
    comparisons of exact fifths. *)
Lemma success_rate_thresholds (n : nat) :
  (n <= 5)%nat ->
  exists f,
    PyFloat.truediv (Z.of_nat n) 5 = Ok f /\
    PyFloat.leb ADAPTIVE_SETTINGS.difficulty_increase_threshold f
      = Qle_bool (85 # 100) (Z.of_nat n # 5) /\
    PyFloat.leb f ADAPTIVE_SETTINGS.difficulty_decrease_threshold
      = Qle_bool (Z.of_nat n # 5) (55 # 100).
Proof.
  intros Hn.
  do 6 (destruct n as [|n]; [eexists; repeat split; vm_compute; reflexivity|]).
  lia.
Qed.

Lemma _adjust_difficulty_run gt r old h w :
  game_of w gt = Some r ->
  current_difficulty r = Some old ->
  history r = Some h ->
  _adjust_difficulty gt w
  = (Ok tt, store_game gt (set_current_difficulty (adjust_rule old h) r) w).
Proof.
  intros Hr Hold Hh. unfold _adjust_difficulty, adjust_rule.
  rewrite bind_run, (game_data_of_run _ _ _ Hr), Hh. simpl.
  rewrite bind_run. simpl.
  unfold ADAPTIVE_SETTINGS.min_games_before_adjust.
  assert (Hid : store_game gt (set_current_difficulty old r) w = w).
  { apply store_game_same. rewrite Hr. f_equal.
    destruct r; simpl in *; by subst. }
  destruct (length h <? 5)%nat eqn:Hlen; [by rewrite Hid|].
  apply Nat.ltb_ge in Hlen.
  assert (Hwin : length (slice_last 5 h) = 5%nat) by (rewrite slice_last_length; lia).
  pose proof (wins_le_length (slice_last 5 h)) as Hle. rewrite Hwin in Hle.
  destruct (success_rate_thresholds _ Hle) as (f & Hdiv & Hup & Hdown).
  rewrite Hwin, bind_run. unfold lift. change (Z.of_nat 5) with 5. rewrite Hdiv, Hold.
  rewrite bind_run. simpl. rewrite Hup, Hdown.
  destruct (Qle_bool (85 # 100) _).
  { by rewrite (update_game_data_run _ _ _ _ Hr). }
  destruct (Qle_bool _ (55 # 100)).
  { by rewrite (update_game_data_run _ _ _ _ Hr). }
  by rewrite Hid.
Qed.

(** ** Recording a result *)

Lemma slice_last_short {A} (n : nat) (l : list A) :
  (length l <= n)%nat -> slice_last n l = l.
Proof. intros H. unfold slice_last. replace (length l - n)%nat with 0%nat by lia. done. Qed.

Lemma subscript_run {A} key (a : A) w : subscript key (Some a) w = (Ok a, w).
Proof. reflexivity. Qed.

Lemma mret_run {A} (a : A) (w : World) : (mret a : M A) w = (Ok a, w).
Proof. reflexivity. Qed.

Lemma update_game_result_run gt won_ score_ time_taken_ details_ now w lv gp gw cd h :
  game_of w gt = Some (full_record lv gp gw cd h) ->
  update_game_result gt won_ score_ time_taken_ details_ now w
  = (Ok tt,
     saved now (store_game gt
       (recorded lv gp gw cd h (history_entry_of won_ score_ time_taken_ details_ now cd)) w)).
Proof.
  intros Hr. unfold update_game_result.
  pose proof (game_of_games _ _ _ Hr) as Hg.
  rewrite bind_run, (game_data_of_run _ _ _ Hr).
  cbn [full_record games_played games_won current_difficulty history].
  rewrite bind_run, subscript_run.
  rewrite bind_run, (update_game_data_run _ _ _ _ Hr).
  change (set_games_played (gp + 1) (full_record lv gp gw cd h))
    with (full_record lv (gp + 1) gw cd h).
  unfold recorded. cbn [won history_entry_of].
  set (e := history_entry_of won_ score_ time_taken_ details_ now).
  set (gw' := if won_ then gw + 1 else gw).
  rewrite bind_run.
  assert (Hwon : forall (k : M unit),
            (if won_
             then w0 ← subscript "games_won" (Some gw);
                  update_game_data gt (set_games_won (w0 + 1))
             else mret ()) (store_game gt (full_record lv (gp + 1) gw cd h) w)
            = (Ok tt, store_game gt (full_record lv (gp + 1) gw' cd h) w)).
  { intros _. subst gw'. destruct won_; [|reflexivity].
    rewrite bind_run, subscript_run.
    erewrite update_game_data_run by (by apply game_of_store_eq).
    by rewrite store_game_twice. }
  rewrite (Hwon (mret tt)). clear Hwon.
  rewrite bind_run, subscript_run, bind_run, subscript_run, bind_run.
  erewrite update_game_data_run by (by apply game_of_store_eq).
  rewrite store_game_twice.
  change (set_history (h ++ [e cd]) (full_record lv (gp + 1) gw' cd h))
    with (full_record lv (gp + 1) gw' cd (h ++ [e cd])).
  rewrite bind_run.
  assert (Hcut :
            (if (50 <? length (h ++ [e cd]))%nat
             then update_game_data gt (set_history (slice_last 50 (h ++ [e cd])))
             else mret ()) (store_game gt (full_record lv (gp + 1) gw' cd (h ++ [e cd])) w)
            = (Ok tt, store_game gt
                        (full_record lv (gp + 1) gw' cd (slice_last 50 (h ++ [e cd]))) w)).
  { destruct (50 <? length (h ++ [e cd]))%nat eqn:Hlen.
    - erewrite update_game_data_run by (by apply game_of_store_eq).
      by rewrite store_game_twice.
    - apply Nat.ltb_ge in Hlen. by rewrite (slice_last_short _ _ Hlen). }
  rewrite Hcut. clear Hcut.
  rewrite bind_run.
  erewrite (_adjust_difficulty_run gt _ cd (slice_last 50 (h ++ [e cd])));
    [|by apply game_of_store_eq|done..].
  by rewrite save_progress_run, store_game_twice.
Qed.

Lemma slice_last_snoc {A} (n : nat) (l : list A) (x : A) :
  slice_last (S n) (l ++ [x]) = slice_last n l ++ [x].
Proof.
  unfold slice_last. rewrite length_app. simpl.
  replace (length l + 1 - S n)%nat with (length l - n)%nat by lia.
  rewrite drop_app_le by lia. done.
Qed.

Lemma slice_last_slice_last {A} (m n : nat) (l : list A) :
  (m <= n)%nat -> slice_last m (slice_last n l) = slice_last m l.
Proof.
  intros Hmn. unfold slice_last at 1. rewrite slice_last_length.
  unfold slice_last. rewrite drop_drop. f_equal. lia.
Qed.

Lemma slice_last_app_l {A} (n : nat) (l l' : list A) :
  slice_last n (slice_last n l ++ l') = slice_last n (l ++ l').
Proof.
  unfold slice_last at 1 3. rewrite !length_app, slice_last_length.
  unfold slice_last.
  destruct (decide (length l <= n)%nat) as [Hle|Hgt].
  - replace (length l - n)%nat with 0%nat by lia. simpl. f_equal. lia.
  - replace (length l + length l' - n)%nat
      with ((length l - n) + length l')%nat by lia.
    replace (length l `min` n + length l' - n)%nat with (length l')%nat by lia.
    rewrite <- drop_drop.
    rewrite (drop_app_le l l' (length l - n)) by lia. done.
Qed.

Lemma slice_last_app_r {A} (n : nat) (l l' : list A) :
  (n <= length l')%nat -> slice_last n (l ++ l') = slice_last n l'.
Proof.
  intros Hn. unfold slice_last. rewrite length_app.
  replace (length l + length l' - n)%nat with (length l + (length l' - n))%nat by lia.
  by rewrite drop_app_add.
Qed.

(** The window of the rule does not see the cut at fifty entries. *)
Lemma adjust_rule_slice_last old (l : list HistoryEntry) :
  adjust_rule old (slice_last 50 l) = adjust_rule old l.
Proof.
  unfold adjust_rule. rewrite slice_last_slice_last by lia.
  rewrite slice_last_length.
  destruct (length l <? 5)%nat eqn:H1, (length l `min` 50 <? 5)%nat eqn:H2;
    try reflexivity.
  - apply Nat.ltb_lt in H1. apply Nat.ltb_ge in H2. lia.
  - apply Nat.ltb_ge in H1. apply Nat.ltb_lt in H2. lia.
Qed.

(** C7: a call of update_game_result on a record with all its keys
    succeeds; games_played grows by one, games_won grows by one exactly
    when [won] holds, and the last entry of the history is the new one,
    whose difficulty field is the current_difficulty stored before the
    call, whatever the recomputation that follows makes of it. *)
Theorem update_game_result_entry_and_counters
    gt won_ score_ time_taken_ details_ now w lv gp gw cd h :
  game_of w gt = Some (full_record lv gp gw cd h) ->
  exists w' r' h',
    update_game_result gt won_ score_ time_taken_ details_ now w = (Ok tt, w') /\
    game_of w' gt = Some r' /\
    games_played r' = Some (gp + 1) /\
    games_won r' = Some (if won_ then gw + 1 else gw) /\
    history r' = Some h' /\
    last h' = Some (history_entry_of won_ score_ time_taken_ details_ now cd) /\
    difficulty <$> last h' = Some cd /\
    current_difficulty r' = Some (adjust_rule cd (h ++ [history_entry_of won_ score_ time_taken_ details_ now cd])).
Proof.
  intros Hr. rewrite (update_game_result_run _ _ _ _ _ _ _ _ _ _ _ _ Hr).
  pose proof (game_of_games _ _ _ Hr) as Hg.
  eexists _, _, _. split; [reflexivity|].
  rewrite game_of_saved, game_of_store_eq by done.
  split; [reflexivity|]. unfold recorded, full_record.
  cbn [games_played games_won history current_difficulty won history_entry_of].
  rewrite adjust_rule_slice_last, (slice_last_snoc 49), last_snoc. done.
Qed.

(** A fifth win at difficulty 5: counters 5 and 5, entry at difficulty 5,
    stored difficulty 6. *)
Lemma update_game_result_entry_and_counters_witness :
  game_of (sample_world four_wins None) "counting"
  = Some (full_record (Some 1) 4 4 5 four_wins) /\
  exists w' r',
    update_game_result "counting" true 95 12000000 None 1000 (sample_world four_wins None)
    = (Ok tt, w') /\
    game_of w' "counting" = Some r' /\
    games_played r' = Some 5 /\ games_won r' = Some 5 /\
    difficulty <$> (history r' ≫= last) = Some 5 /\
    current_difficulty r' = Some 6.
Proof.
  assert (H : game_of (sample_world four_wins None) "counting"
              = Some (full_record (Some 1) 4 4 5 four_wins)) by reflexivity.
  split; [exact H|].
  destruct (update_game_result_entry_and_counters
              "counting" true 95 12000000 None 1000 _ _ _ _ _ _ H)
    as (w' & r' & h' & Hrun & Hr & Hgp & Hgw & Hh & Hlast & Hdiff & Hcd).
  exists w', r'. split; [exact Hrun|]. split; [exact Hr|].
  split; [exact Hgp|]. split; [exact Hgw|]. split; [|exact Hcd].
  rewrite Hh. exact Hdiff.
Defined.

Lemma adjust_rule_cases old (l : list HistoryEntry) :
  let success_rate := (Z.of_nat (wins (slice_last 5 l)) # 5)%Q in
  ((length l < 5)%nat -> adjust_rule old l = old) /\
  ((5 <= length l)%nat ->
     ((85 # 100 <= success_rate)%Q -> adjust_rule old l = Z.min (old + 1) 10) /\
     (~ (85 # 100 <= success_rate)%Q -> (success_rate <= 55 # 100)%Q ->
        adjust_rule old l = Z.max (old - 1) 1) /\
     (~ (85 # 100 <= success_rate)%Q -> ~ (success_rate <= 55 # 100)%Q ->
        adjust_rule old l = old)).
Proof.
  intros sr. unfold adjust_rule. fold sr. split.
  - intros H. apply Nat.ltb_lt in H. by rewrite H.
  - intros H. apply Nat.ltb_ge in H. rewrite H.
    destruct (Qle_bool (85 # 100) sr) eqn:Hup;
      [apply Qle_bool_iff in Hup | apply not_true_iff_false in Hup;
                                   rewrite Qle_bool_iff in Hup];
      (destruct (Qle_bool sr (55 # 100)) eqn:Hdown;
       [apply Qle_bool_iff in Hdown | apply not_true_iff_false in Hdown;
                                      rewrite Qle_bool_iff in Hdown]);
      repeat split; intros; try reflexivity; try contradiction.
Qed.

(** C3: after update_game_result has appended its entry, a history of
    fewer than five entries leaves current_difficulty as it was;
    otherwise, with success_rate the wins among the last five entries
    divided by five, a rate of at least 0.85 gives min(old + 1, 10), one
    of at most 0.55 gives max(old - 1, 1), and anything in between
    leaves it unchanged; the step is one level. *)
Theorem update_game_result_adjusts_difficulty
    gt won_ score_ time_taken_ details_ now w lv gp gw old h :
  game_of w gt = Some (full_record lv gp gw old h) ->
  let appended := h ++ [history_entry_of won_ score_ time_taken_ details_ now old] in
  let success_rate := (Z.of_nat (wins (slice_last 5 appended)) # 5)%Q in
  exists w' r' new,
    update_game_result gt won_ score_ time_taken_ details_ now w = (Ok tt, w') /\
    game_of w' gt = Some r' /\
    current_difficulty r' = Some new /\
    ((length appended < 5)%nat -> new = old) /\
    ((5 <= length appended)%nat ->
       ((85 # 100 <= success_rate)%Q -> new = Z.min (old + 1) 10) /\
       (~ (85 # 100 <= success_rate)%Q -> (success_rate <= 55 # 100)%Q ->
          new = Z.max (old - 1) 1) /\
       (~ (85 # 100 <= success_rate)%Q -> ~ (success_rate <= 55 # 100)%Q ->
          new = old)) /\
    (new = old \/ new = Z.min (old + 1) 10 \/ new = Z.max (old - 1) 1).
Proof.
  intros Hr appended success_rate.
  rewrite (update_game_result_run _ _ _ _ _ _ _ _ _ _ _ _ Hr).
  pose proof (game_of_games _ _ _ Hr) as Hg.
  eexists _, _, (adjust_rule old appended). split; [reflexivity|].
  rewrite game_of_saved, game_of_store_eq by done.
  split; [reflexivity|].
  split.
  { unfold recorded, full_record. cbn [current_difficulty].
    by rewrite adjust_rule_slice_last. }
  destruct (adjust_rule_cases old appended) as [Hshort Hfull].
  split; [exact Hshort|]. split; [exact Hfull|].
  destruct (decide (length appended < 5)%nat) as [Hlt|Hge].
  { left. by apply Hshort. }
  destruct (Hfull ltac:(lia)) as (Hup & Hdown & Hmid).
  destruct (Qlt_le_dec success_rate (85 # 100)) as [H1|H1].
  - apply Qlt_not_le in H1.
    destruct (Qlt_le_dec (55 # 100) success_rate) as [H2|H2].
    + apply Qlt_not_le in H2. left. by apply Hmid.
    + right. right. by apply Hdown.
  - right. left. by apply Hup.
Qed.

(** Five wins in the window: the difficulty goes from 5 to 6. *)
Lemma update_game_result_adjusts_difficulty_witness :
  game_of (sample_world four_wins None) "counting"
  = Some (full_record (Some 1) 4 4 5 four_wins) /\
  exists w' r',
    update_game_result "counting" true 95 12000000 None 1000 (sample_world four_wins None)
    = (Ok tt, w') /\
    game_of w' "counting" = Some r' /\
    current_difficulty r' = Some 6.
Proof.
  assert (H : game_of (sample_world four_wins None) "counting"
              = Some (full_record (Some 1) 4 4 5 four_wins)) by reflexivity.
  split; [exact H|].
  destruct (update_game_result_adjusts_difficulty
              "counting" true 95 12000000 None 1000 _ _ _ _ _ _ H)
    as (w' & r' & new & Hrun & Hr & Hcd & _ & Hfull & _).
  exists w', r'. split; [exact Hrun|]. split; [exact Hr|].
  rewrite Hcd. f_equal.
  assert (Hlen : (5 <= length (four_wins ++
            [history_entry_of true 95 12000000 None 1000 5]))%nat) by (cbn; lia).
  destruct (Hfull Hlen) as (Hup & _).
  apply Hup. vm_compute. discriminate.
Defined.

(** ** A run of calls on one game type *)

Lemma entries_of_calls cd h calls : Forall2 entry_of_call calls (entries_of cd h calls).
Proof.
  revert cd h. induction calls as [|c calls IH]; intros cd h; simpl.
  - constructor.
  - constructor; [|apply IH]. by repeat split.
Qed.

Lemma entries_of_take cd h calls k :
  entries_of cd h (take k calls) = take k (entries_of cd h calls).
Proof.
  revert cd h k. induction calls as [|c calls IH]; intros cd h [|k]; simpl; try done.
  by rewrite IH.
Qed.

Lemma entries_of_length cd h calls : length (entries_of cd h calls) = length calls.
Proof. revert cd h. induction calls as [|c calls IH]; intros; simpl; [done|]. by rewrite IH. Qed.

Lemma update_game_results_run gt calls :
  forall w lv gp gw cd h,
    game_of w gt = Some (full_record lv gp gw cd h) ->
    exists w' gp' gw' cd',
      update_game_results gt calls w = (Ok tt, w') /\
      game_of w' gt
      = Some (full_record lv gp' gw' cd'
                (match calls with
                 | [] => h
                 | _ => slice_last 50 (h ++ entries_of cd h calls)
                 end)).
Proof.
  induction calls as [|c calls IH]; intros w lv gp gw cd h Hr.
  - exists w, gp, gw, cd. by split.
  - pose proof (game_of_games _ _ _ Hr) as Hg.
    cbn [update_game_results]. rewrite bind_run.
    rewrite (update_game_result_run _ _ _ _ _ _ _ _ _ _ _ _ Hr).
    set (e := history_entry_of _ _ _ _ _ cd).
    set (w1 := saved _ _).
    assert (H1 : game_of w1 gt = Some (recorded lv gp gw cd h e)).
    { subst w1. by rewrite game_of_saved, game_of_store_eq. }
    destruct (IH w1 _ _ _ _ _ H1) as (w' & gp' & gw' & cd' & Hrun & Hrec).
    exists w', gp', gw', cd'. split; [exact Hrun|].
    rewrite Hrec. f_equal. f_equal. cbn [entries_of]. fold e.
    destruct calls as [|c' calls]; [done|].
    by rewrite slice_last_app_l, <- app_assoc.
Qed.

(** C6: along any run of update_game_result calls on one game type,
    after every call past the fiftieth the history has exactly fifty
    entries, and they are the last fifty entries appended, in call
    order. *)
Theorem history_keeps_last_fifty gt calls w lv gp gw cd h (k : nat) :
  game_of w gt = Some (full_record lv gp gw cd h) ->
  (50 < k <= length calls)%nat ->
  let entries := entries_of cd h calls in
  Forall2 entry_of_call calls entries /\
  exists w' r',
    update_game_results gt (take k calls) w = (Ok tt, w') /\
    game_of w' gt = Some r' /\
    history r' = Some (slice_last 50 (take k entries)) /\
    length (slice_last 50 (take k entries)) = 50%nat.
Proof.
  intros Hr Hk entries. split; [apply entries_of_calls|].
  destruct (update_game_results_run gt (take k calls) _ _ _ _ _ _ Hr)
    as (w' & gp' & gw' & cd' & Hrun & Hrec).
  assert (Hlen : length (take k entries) = k).
  { subst entries. rewrite length_take, entries_of_length. lia. }
  eexists w', _. split; [exact Hrun|]. split; [exact Hrec|].
  split.
  - cbn [history full_record]. f_equal.
    destruct (take k calls) as [|c l] eqn:Htake.
    { apply (f_equal length) in Htake. rewrite length_take in Htake. simpl in Htake. lia. }
    rewrite <- Htake, entries_of_take. fold entries.
    apply slice_last_app_r. lia.
  - rewrite slice_last_length. lia.
Qed.

(** Fifty-one calls on a history of four entries leave fifty. *)
Lemma history_keeps_last_fifty_witness :
  game_of (sample_world four_wins None) "counting"
  = Some (full_record (Some 1) 4 4 5 four_wins) /\
  (50 < 51 <= length (replicate 51 sample_call))%nat /\
  exists w' r',
    update_game_results "counting" (take 51 (replicate 51 sample_call))
      (sample_world four_wins None) = (Ok tt, w') /\
    game_of w' "counting" = Some r' /\
    length <$> history r' = Some 50%nat.
Proof.
  assert (H : game_of (sample_world four_wins None) "counting"
              = Some (full_record (Some 1) 4 4 5 four_wins)) by reflexivity.
  assert (Hk : (50 < 51 <= length (replicate 51 sample_call))%nat)
    by (rewrite length_replicate; lia).
  split; [exact H|]. split; [exact Hk|].
  destruct (history_keeps_last_fifty "counting" (replicate 51 sample_call)
              _ _ _ _ _ _ 51%nat H Hk)
    as (_ & w' & r' & Hrun & Hr & Hh & Hlen).
  exists w', r'. split; [exact Hrun|]. split; [exact Hr|].
  rewrite Hh. cbn [fmap option_fmap option_map]. f_equal; exact Hlen.
Defined.

(** ** Rewards *)

Lemma adjust_rule_range old (l : list HistoryEntry) :
  1 <= old <= 10 -> 1 <= adjust_rule old l <= 10.
Proof.
  intros H. unfold adjust_rule.
  destruct (length l <? 5)%nat; [lia|].
  destruct (Qle_bool _ _); [lia|]. destruct (Qle_bool _ _); lia.
Qed.

(** On the ten difficulty levels the double arithmetic of the coin
    formula gives the exact floor. *)
Lemma coins_for_level (d : Z) :
  1 <= d <= 10 -> coins_for d = Ok (Qfloor (10 * (1 + inject_Z d * (1 # 10)))).
Proof.
  intros H.
  assert (Hd : d = 1 \/ d = 2 \/ d = 3 \/ d = 4 \/ d = 5 \/
               d = 6 \/ d = 7 \/ d = 8 \/ d = 9 \/ d = 10) by lia.
  repeat (destruct Hd as [->|Hd]; [vm_compute; reflexivity|]).
  subst d. vm_compute. reflexivity.
Qed.

Lemma add_coins_run amount now w c :
  total_coins (data w) = Some c ->
  add_coins amount now w
  = (Ok tt, saved now (with_data (set_total_coins (c + amount) (data w)) w)).
Proof. intros H. unfold add_coins. rewrite bind_run. simpl. by rewrite H. Qed.

Lemma add_stars_run amount now w s :
  total_stars (data w) = Some s ->
  add_stars amount now w
  = (Ok tt, saved now (with_data (set_total_stars (s + amount) (data w)) w)).
Proof. intros H. unfold add_stars. rewrite bind_run. simpl. by rewrite H. Qed.

Lemma total_coins_store gt r w : total_coins (data (store_game gt r w)) = total_coins (data w).
Proof. unfold store_game. by destruct (games (data w)). Qed.

Lemma total_stars_store gt r w : total_stars (data (store_game gt r w)) = total_stars (data w).
Proof. unfold store_game. by destruct (games (data w)). Qed.

Lemma current_game_store gt r w : current_game (store_game gt r w) = current_game w.
Proof. unfold store_game. by destruct (games (data w)). Qed.

(** Ending with no game in progress does nothing. *)
Lemma end_game_idle won_ score_ details_ now w :
  current_game w = None -> end_game won_ score_ details_ now w = (Ok tt, w).
Proof. intros H. unfold end_game. rewrite bind_run. simpl. by rewrite H. Qed.

(** C1 (counterexample): a counting game played at difficulty 5 is won
    with score 95 after four won games.  The adjustment has moved the
    stored difficulty to 6 when the reward is computed: 16 coins are
    added, not floor(10 * (1 + 5 * 0.1)) = 15. *)
Lemma end_game_coins_use_adjusted_difficulty :
  current_game (sample_world four_wins None) = Some sample_session /\
  game_of (sample_world four_wins None) "counting" ≫= current_difficulty = Some 5 /\
  total_coins (data (sample_world four_wins None)) = Some 0 /\
  fst (end_game true 95 None 1000 (sample_world four_wins None)) = Ok tt /\
  total_coins (data (snd (end_game true 95 None 1000 (sample_world four_wins None))))
  = Some 16 /\
  Qfloor (10 * (1 + inject_Z 5 * (1 # 10))) = 15 /\
  total_coins (data (snd (end_game true 95 None 1000 (sample_world four_wins None))))
  <> Some (0 + Qfloor (10 * (1 + inject_Z 5 * (1 # 10)))).
Proof.
  assert (H : total_coins (data (snd (end_game true 95 None 1000
                                        (sample_world four_wins None)))) = Some 16)
    by (vm_compute; reflexivity).
  split; [reflexivity|]. split; [reflexivity|]. split; [reflexivity|].
  split; [vm_compute; reflexivity|]. split; [exact H|].
  split; [vm_compute; reflexivity|].
  rewrite H. vm_compute. discriminate.
Qed.

(** C1 (amended): with a game in progress on a record whose stored
    difficulty is one of the ten levels, end_game succeeds; a win adds
    floor(10 * (1 + d * 0.1)) coins where d is the current_difficulty
    stored when the reward is computed, that is, after
    update_game_result has recorded the game and adjusted the
    difficulty; a win adds 3 stars for a score of at least 90, 2 for at
    least 70, 1 below; a loss adds no coins and no stars; the session
    is cleared. *)
Theorem end_game_rewards session won_ score_ details_ now w lv gp gw cd h c s :
  current_game w = Some session ->
  game_of w (type session) = Some (full_record lv gp gw cd h) ->
  1 <= cd <= 10 ->
  total_coins (data w) = Some c ->
  total_stars (data w) = Some s ->
  let played :=
    history_entry_of won_ score_ (now - start_time session) details_ now cd in
  exists w' r' d,
    end_game won_ score_ details_ now w = (Ok tt, w') /\
    game_of w' (type session) = Some r' /\
    current_difficulty r' = Some d /\
    d = adjust_rule cd (h ++ [played]) /\
    total_coins (data w')
    = Some (if won_ then c + Qfloor (10 * (1 + inject_Z d * (1 # 10))) else c) /\
    total_stars (data w')
    = Some (if won_ then s + (if 90 <=? score_ then 3 else if 70 <=? score_ then 2 else 1)
            else s) /\
    current_game w' = None.
Proof.
  intros Hcg Hr Hcd Hc Hs played.
  pose proof (game_of_games _ _ _ Hr) as Hg.
  unfold end_game. rewrite bind_run. cbn [get_current_game]. rewrite Hcg.
  rewrite bind_run, (update_game_result_run _ _ _ _ _ _ _ _ _ _ _ _ Hr).
  fold played.
  set (r1 := recorded lv gp gw cd h played).
  set (w1 := saved now (store_game (type session) r1 w)).
  assert (H1 : game_of w1 (type session) = Some r1).
  { subst w1. by rewrite game_of_saved, game_of_store_eq. }
  assert (Hd : current_difficulty r1 = Some (adjust_rule cd (h ++ [played]))).
  { subst r1. unfold recorded, full_record. cbn [current_difficulty].
    by rewrite adjust_rule_slice_last. }
  set (d := adjust_rule cd (h ++ [played])) in *.
  assert (Hc1 : total_coins (data w1) = Some c).
  { subst w1. cbn. by rewrite total_coins_store. }
  assert (Hs1 : total_stars (data w1) = Some s).
  { subst w1. cbn. by rewrite total_stars_store. }
  rewrite bind_run.
  destruct won_.
  - rewrite bind_run, (game_data_of_run _ _ _ H1), bind_run, Hd, subscript_run.
    rewrite bind_run. unfold lift.
    rewrite (coins_for_level d) by (by apply adjust_rule_range).
    set (coins := Qfloor _).
    rewrite bind_run, (add_coins_run _ _ _ _ Hc1).
    set (w2 := saved now _).
    assert (Hs2 : total_stars (data w2) = Some s) by (subst w2; exact Hs1).
    assert (Hstars : forall n, add_stars n now w2
              = (Ok tt, saved now (with_data (set_total_stars (s + n) (data w2)) w2))).
    { intros n. by apply add_stars_run. }
    assert (H2 : forall n, game_of (saved now (with_data (set_total_stars (s + n) (data w2)) w2))
                     (type session) = Some r1).
    { intros n. exact H1. }
    destruct (90 <=? score_); [|destruct (70 <=? score_)];
      rewrite Hstars; eexists _, r1, d;
      (split; [reflexivity|]); (split; [apply H2|]);
      repeat split; done.
  - exists (with_current_game None w1), r1, d.
    split; [reflexivity|]. repeat split; done.
Qed.

(** The same game seen through the theorem: 16 coins, 3 stars. *)
Lemma end_game_rewards_witness :
  current_game (sample_world four_wins None) = Some sample_session /\
  game_of (sample_world four_wins None) (type sample_session)
  = Some (full_record (Some 1) 4 4 5 four_wins) /\
  1 <= 5 <= 10 /\
  total_coins (data (sample_world four_wins None)) = Some 0 /\
  total_stars (data (sample_world four_wins None)) = Some 0 /\
  exists w',
    end_game true 95 None 1000 (sample_world four_wins None) = (Ok tt, w') /\
    total_coins (data w') = Some 16 /\
    total_stars (data w') = Some 3 /\
    current_game w' = None.
Proof.
  assert (H : game_of (sample_world four_wins None) (type sample_session)
              = Some (full_record (Some 1) 4 4 5 four_wins)) by reflexivity.
  assert (Hcd : 1 <= 5 <= 10) by lia.
  split; [reflexivity|]. split; [exact H|]. split; [exact Hcd|].
  split; [reflexivity|]. split; [reflexivity|].
  destruct (end_game_rewards sample_session true 95 None 1000
              (sample_world four_wins None) _ _ _ _ _ 0 0
              eq_refl H Hcd eq_refl eq_refl)
    as (w' & r' & d & Hrun & Hr & Hd & Hadj & Hcoins & Hstars & Hcg).
  exists w'. split; [exact Hrun|]. subst d.
  split; [exact Hcoins|]. split; [exact Hstars|exact Hcg].
Defined.

(** The example of the specification: with no earlier games the
    adjustment does not run, and a win at difficulty 5 with score 95
    brings 15 coins and 3 stars. *)
Example end_game_first_win :
  total_coins (data (snd (end_game true 95 None 1000 (sample_world [] None)))) = Some 15 /\
  total_stars (data (snd (end_game true 95 None 1000 (sample_world [] None)))) = Some 3.
Proof. split; vm_compute; reflexivity. Qed.

(** ** Migration *)

Lemma is_in_true {V} k (m : gmap string V) : is_in k m = true <-> is_Some (m !! k).
Proof. unfold is_in. by rewrite bool_decide_eq_true. Qed.

Lemma backfill_lookup fresh (g : gmap string GameRecord) k id :
  backfill fresh g k !! id
  = match g !! id with
    | Some r => Some r
    | None => if decide (id = k) then Some fresh else None
    end.
Proof.
  unfold backfill, is_in. case_bool_decide as Hin.
  - destruct (g !! id) eqn:Hid; [done|]. case_decide; [|done].
    subst. rewrite Hid in Hin. by destruct Hin.
  - rewrite lookup_insert. case_decide.
    + subst. rewrite decide_True by done.
      destruct (g !! id) eqn:Hid; [|done]. exfalso. apply Hin. eauto.
    + rewrite decide_False by done. by destruct (g !! id).
Qed.

Lemma migrated_games_lookup (g : gmap string GameRecord) id :
  migrated_games g !! id
  = match g !! id with
    | Some r => Some r
    | None => if bool_decide (id ∈ new_game_types) then Some (backfill_record g) else None
    end.
Proof.
  unfold migrated_games, new_game_types. simpl foldl.
  rewrite !backfill_lookup.
  destruct (g !! id); [done|].
  destruct (decide (id ∈ ["staff_reading"; "rhythm"; "interval"])) as [Hin|Hout].
  - rewrite bool_decide_eq_true_2 by done.
    rewrite !elem_of_cons, elem_of_nil in Hin.
    destruct Hin as [->|[->|[->|[]]]]; reflexivity.
  - rewrite bool_decide_eq_false_2 by done.
    rewrite !elem_of_cons, elem_of_nil in Hout.
    rewrite !decide_False; [done|naive_solver..].
Qed.

Lemma migrated_games_done (g : gmap string GameRecord) :
  already_migrated (migrated_games g) = true.
Proof.
  unfold already_migrated.
  rewrite !andb_true_iff, !is_in_true, !migrated_games_lookup.
  repeat split; (destruct (g !! _); [eauto|]); rewrite bool_decide_eq_true_2; eauto;
    unfold new_game_types; set_solver.
Qed.

Lemma _migrate_data_run now w g :
  games (data w) = Some g ->
  _migrate_data now w
  = if already_migrated g then (Ok tt, w)
    else (Ok tt, saved now (with_data (set_games (migrated_games g) (data w)) w)).
Proof.
  intros Hg. unfold _migrate_data. rewrite bind_run. cbn [get_data].
  rewrite Hg. change (default ∅ (Some g)) with g. fold (already_migrated g).
  destruct (already_migrated g); [reflexivity|].
  rewrite bind_run.
  replace (match g !! "music_theory" with
           | Some music_data => foldl (backfill (split_record music_data)) g new_game_types
           | None => foldl (backfill zero_record) g new_game_types
           end) with (migrated_games g).
  2:{ unfold migrated_games, backfill_record. by destruct (g !! "music_theory"). }
  reflexivity.
Qed.

Lemma _migrate_data_run_detached now w :
  games (data w) = None -> _migrate_data now w = (Ok tt, saved now w).
Proof.
  intros Hg. unfold _migrate_data. rewrite bind_run. cbn [get_data]. rewrite Hg.
  reflexivity.
Qed.

(** C9: _migrate_data never fails, and at a given clock reading it is
    idempotent on the profile data: run twice it leaves the data that
    one run leaves.  On a profile that has its games dictionary the
    second run changes nothing at all (data, session, save file),
    whatever the clock shows by then.  On a profile that already has
    staff_reading, rhythm and interval the first run changes nothing
    either. *)
Theorem _migrate_data_idempotent now w :
  let once := _migrate_data now w in
  fst once = Ok tt /\
  fst (_migrate_data now (snd once)) = Ok tt /\
  data (snd (_migrate_data now (snd once))) = data (snd once) /\
  (is_Some (games (data w)) ->
   forall now', _migrate_data now' (snd once) = (Ok tt, snd once)) /\
  (forall g, games (data w) = Some g ->
     is_Some (g !! "staff_reading") -> is_Some (g !! "rhythm") ->
     is_Some (g !! "interval") ->
     once = (Ok tt, w)).
Proof.
  intros once. subst once.
  destruct (games (data w)) as [g|] eqn:Hg.
  - rewrite (_migrate_data_run _ _ _ Hg).
    assert (Hagain : forall now',
      _migrate_data now' (if already_migrated g then (Ok tt, w)
                          else (Ok tt, saved now (with_data (set_games (migrated_games g)
                                                               (data w)) w))).2
      = (Ok tt, (if already_migrated g then (Ok tt, w)
                 else (Ok tt, saved now (with_data (set_games (migrated_games g)
                                                      (data w)) w))).2)).
    { intros now'. destruct (already_migrated g) eqn:Hdone; cbn [snd].
      - by rewrite (_migrate_data_run _ _ _ Hg), Hdone.
      - erewrite _migrate_data_run by reflexivity. by rewrite migrated_games_done. }
    split; [by destruct (already_migrated g)|].
    rewrite Hagain. split; [done|]. split; [done|]. split; [intros _; exact Hagain|].
    intros g' Hg' H1 H2 H3. simplify_eq.
    apply is_in_true in H1, H2, H3. unfold already_migrated. by rewrite H1, H2, H3.
  - rewrite (_migrate_data_run_detached _ _ Hg). cbn [fst snd].
    rewrite (_migrate_data_run_detached now (saved now w)) by exact Hg.
    split; [done|]. split; [done|]. split; [reflexivity|].
    split; [by intros [? ?]|]. intros g' Hg'. discriminate.
Qed.

(** The three-game save file, migrated at 5 and again at 7. *)
Lemma _migrate_data_idempotent_witness :
  is_Some (games (data first_version_world)) /\
  _migrate_data 7 (snd (_migrate_data 5 first_version_world))
  = (Ok tt, snd (_migrate_data 5 first_version_world)).
Proof.
  assert (H : is_Some (games (data first_version_world))) by (eexists; reflexivity).
  split; [exact H|].
  pose proof (_migrate_data_idempotent 5 first_version_world) as Hm.
  cbv zeta in Hm. destruct Hm as (_ & _ & _ & Hany & _).
  exact (Hany H 7).
Defined.

(** ** Initialisation *)

(** C2 (counterexample): a valid save file that has find_difference,
    counting and simple_math only is loaded and migrated without error,
    and the known id music_theory still has no entry afterwards. *)
Lemma init_leaves_music_theory_missing :
  "music_theory" ∈ known_game_types /\
  fst (GameProgress_init (FileJson first_version_profile) 100) = Ok tt /\
  game_of (snd (GameProgress_init (FileJson first_version_profile) 100)) "music_theory"
  = None /\
  ~ (forall id, id ∈ known_game_types ->
       is_Some (game_of (snd (GameProgress_init (FileJson first_version_profile) 100)) id)).
Proof.
  assert (Hm : game_of (snd (GameProgress_init (FileJson first_version_profile) 100))
                 "music_theory" = None) by (vm_compute; reflexivity).
  split; [unfold known_game_types; set_solver|]. split; [vm_compute; reflexivity|].
  split; [exact Hm|].
  intros Hall. specialize (Hall "music_theory"). rewrite Hm in Hall.
  destruct Hall as [r Hr]; [unfold known_game_types; set_solver | discriminate].
Qed.

(** C2 (amended): initialisation never fails.  From an absent or
    unreadable save file the games dictionary has all seven known ids.
    From a loaded file that has a games dictionary, every entry of the
    file is kept as it is, each of staff_reading, rhythm and interval
    that was missing gets the back-fill record (music_theory's counters
    divided by three, or the zeroed record without music_theory), and
    no other id is added. *)
Theorem GameProgress_init_games f now :
  let w := snd (GameProgress_init f now) in
  fst (GameProgress_init f now) = Ok tt /\
  (f = FileAbsent \/ f = FileUnreadable ->
   forall id, id ∈ known_game_types -> is_Some (game_of w id)) /\
  (forall p g, f = FileJson p -> games p = Some g ->
   (forall id, id ∈ new_game_types -> is_Some (game_of w id)) /\
   (forall id,
      game_of w id
      = match g !! id with
        | Some r => Some r
        | None => if bool_decide (id ∈ new_game_types)
                  then Some (backfill_record g) else None
        end)).
Proof.
  intros w. subst w. unfold GameProgress_init.
  split; [|split].
  - destruct f as [| |p]; try reflexivity. cbn [_load_progress].
    destruct (games p) as [g|] eqn:Hg.
    + erewrite _migrate_data_run by exact Hg. by destruct (already_migrated g).
    + unfold _migrate_data. rewrite bind_run. cbn [get_data data]. rewrite Hg.
      reflexivity.
  - intros Hf id Hid. unfold known_game_types in Hid.
    rewrite !elem_of_cons, elem_of_nil in Hid.
    destruct Hf as [-> | ->];
      destruct Hid as [->|[->|[->|[->|[->|[->|[->|[]]]]]]]];
      vm_compute; eauto.
  - intros p g -> Hg. cbn [_load_progress].
    set (w0 := {| data := p |}).
    assert (Hlook : forall id,
      game_of (snd (_migrate_data now w0)) id
      = match g !! id with
        | Some r => Some r
        | None => if bool_decide (id ∈ new_game_types)
                  then Some (backfill_record g) else None
        end).
    { intros id. rewrite (_migrate_data_run now w0 g Hg).
      destruct (already_migrated g) eqn:Hdone; cbn [snd].
      - unfold game_of. cbn [w0 data]. rewrite Hg. cbn.
        destruct (g !! id) eqn:Hid; [done|].
        rewrite bool_decide_eq_false_2; [done|].
        unfold already_migrated in Hdone.
        rewrite !andb_true_iff, !is_in_true in Hdone.
        destruct Hdone as [[H1 H2] H3].
        unfold new_game_types. rewrite !elem_of_cons, elem_of_nil.
        intros [->|[->|[->|[]]]]; rewrite Hid in *;
          by destruct H1, H2, H3.
      - unfold game_of. cbn. apply migrated_games_lookup. }
    split; [|exact Hlook].
    intros id Hid. rewrite Hlook. destruct (g !! id); [eauto|].
    rewrite bool_decide_eq_true_2 by done. eauto.
Qed.

(** The three-game save file gets the three newest ids. *)
Lemma GameProgress_init_games_witness :
  games first_version_profile
  = Some (<["find_difference" := zero_record]>
         (<["counting" := zero_record]>
         (<["simple_math" := zero_record]> ∅))) /\
  fst (GameProgress_init (FileJson first_version_profile) 100) = Ok tt /\
  forall id, id ∈ new_game_types ->
    is_Some (game_of (snd (GameProgress_init (FileJson first_version_profile) 100)) id).
Proof.
  split; [reflexivity|].
  pose proof (GameProgress_init_games (FileJson first_version_profile) 100) as H.
  cbv zeta in H. destruct H as (Hok & _ & Hfile).
  split; [exact Hok|].
  exact (proj1 (Hfile first_version_profile _ eq_refl eq_refl)).
Defined.

(** ** Pre-game difficulty *)

Lemma lift_run {A} (o : outcome A) w : lift o w = (o, w).
Proof. reflexivity. Qed.

(** C10: get_difficulty only reads.  Whatever it returns or raises,
    the world after the call is the world before it: profile data
    (games, difficulty settings, coins, stars, histories), session and
    save file with its write count. *)
Theorem get_difficulty_read_only game_type today w :
  snd (get_difficulty game_type today w) = w.
Proof.
  unfold get_difficulty. rewrite bind_run. cbn [get_data].
  destruct (default ∅ (difficulty_settings (data w)) !! game_type) as [v|];
    [reflexivity|].
  rewrite bind_run.
  destruct (games (data w)) as [g|]; [|reflexivity].
  rewrite subscript_run, bind_run, lift_run.
  destruct (nudge _ _); reflexivity.
Qed.

(** C4: when difficulty_settings has an entry for the game type,
    get_difficulty returns that value clamped to 1..10, whatever the
    birth date, the counters, the history and current_difficulty are;
    an override of 7 gives 7. *)
Theorem get_difficulty_override game_type today w ds v :
  difficulty_settings (data w) = Some ds ->
  ds !! game_type = Some v ->
  get_difficulty game_type today w = (Ok (Z.min (Z.max v 1) 10), w) /\
  (v = 7 -> get_difficulty game_type today w = (Ok 7, w)).
Proof.
  intros Hds Hv.
  assert (H : get_difficulty game_type today w = (Ok (Z.min (Z.max v 1) 10), w)).
  { unfold get_difficulty. rewrite bind_run. cbn [get_data]. rewrite Hds.
    change (default ∅ (Some ds)) with ds. by rewrite Hv. }
  split; [exact H|]. intros ->. exact H.
Qed.

(** An override of 7 on a profile with a birth date and a win streak. *)
Lemma get_difficulty_override_witness :
  difficulty_settings (data (sample_world four_wins (Some {["counting" := 7]})))
  = Some {["counting" := 7]} /\
  ({["counting" := 7]} : gmap string Z) !! "counting" = Some 7 /\
  get_difficulty "counting" sample_today (sample_world four_wins (Some {["counting" := 7]}))
  = (Ok 7, sample_world four_wins (Some {["counting" := 7]})).
Proof.
  split; [reflexivity|]. split; [reflexivity|].
  exact (proj2 (get_difficulty_override "counting" sample_today
                  (sample_world four_wins (Some {["counting" := 7]}))
                  {["counting" := 7]} 7 eq_refl eq_refl) eq_refl).
Defined.

(** ** Division of a count by a larger count *)

Section Rounding.

Variables prec emax : Z.
Hypothesis prec_ge_2 : 2 <= prec.
Hypothesis prec_le_emax : prec <= emax.

Lemma fexp_eq (x : Z) : fexp prec emax x = Z.max (x - prec) (3 - emax - prec).
Proof. reflexivity. Qed.

Lemma shr_1_m (mrs : shr_record) :
  0 <= shr_m mrs -> shr_m (shr_1 mrs) = shr_m mrs / 2.
Proof.
  destruct mrs as [m r s]. cbn [shr_m]. intros Hm.
  rewrite <- Z.div2_div.
  destruct m as [|[p|p|]|p]; try reflexivity; lia.
Qed.

Lemma iter_pos_shr_m (p : positive) :
  forall mrs, 0 <= shr_m mrs ->
    shr_m (SpecFloat.iter_pos shr_1 p mrs) = shr_m mrs / 2 ^ Zpos p.
Proof.
  induction p as [p IH|p IH|]; intros mrs Hm; cbn [SpecFloat.iter_pos].
  - assert (H1 : 0 <= shr_m (shr_1 mrs)) by (rewrite shr_1_m by done; apply Z.div_pos; lia).
    assert (H2 : 0 <= shr_m (SpecFloat.iter_pos shr_1 p (shr_1 mrs)))
      by (rewrite IH by done; apply Z.div_pos; lia).
    rewrite IH, IH, shr_1_m by done.
    rewrite !Z.div_div by lia. f_equal.
    replace (Zpos p~1) with (1 + Zpos p + Zpos p) by lia.
    rewrite !Z.pow_add_r by lia. lia.
  - assert (H2 : 0 <= shr_m (SpecFloat.iter_pos shr_1 p mrs))
      by (rewrite IH by done; apply Z.div_pos; lia).
    rewrite IH, IH by done.
    rewrite !Z.div_div by lia. f_equal.
    replace (Zpos p~0) with (Zpos p + Zpos p) by lia.
    rewrite !Z.pow_add_r by lia. lia.
  - by rewrite shr_1_m.
Qed.

Lemma shr_m_record_of_loc m l : shr_m (shr_record_of_loc m l) = m.
Proof. by destruct l as [|[]]. Qed.

Lemma Zdigits2_le (m k : Z) : 0 <= k -> 0 <= m <= 2 ^ k -> Zdigits2 m <= k + 1.
Proof.
  intros Hk [H0 Hm]. destruct m as [|p|p]; [simpl; lia| |lia].
  cbn [Zdigits2].
  assert (Hsize : digits2_pos p = Pos.size p).
  { clear. induction p; simpl; congruence. }
  rewrite Hsize.
  pose proof (Pos.size_le p) as Hle.
  assert (H2 : 2 ^ Zpos (Pos.size p) <= 2 ^ (k + 1)).
  { rewrite Z.pow_add_r, Z.pow_1_r by lia.
    assert (2 ^ Zpos (Pos.size p) <= Zpos p~0)
      by (rewrite <- Pos2Z.inj_pow; exact Hle).
    lia. }
  apply Z.pow_le_mono_r_iff in H2; lia.
Qed.

(** A mantissa and exponent whose value [m * 2^e] is at most one
    (strictly below one) keep that bound under the shift that brings
    the mantissa to its exponent. *)
Lemma shr_fexp_below_one (m e : Z) (l : location) :
  0 <= m -> e <= 0 -> m <= 2 ^ (- e) ->
  let '(mrs', e') := shr_fexp prec emax m e l in
  0 <= shr_m mrs' /\ e' <= 0 /\ shr_m mrs' <= 2 ^ (- e') /\
  (m < 2 ^ (- e) -> shr_m mrs' < 2 ^ (- e')).
Proof.
  intros H0 He Hm. unfold shr_fexp, shr.
  pose proof (Zdigits2_le m (- e) ltac:(lia) ltac:(lia)) as Hd.
  destruct (fexp prec emax (Zdigits2 m + e) - e) as [|n|n] eqn:Hn;
    rewrite ?shr_m_record_of_loc; try (repeat split; lia).
  rewrite iter_pos_shr_m by (rewrite shr_m_record_of_loc; lia).
  rewrite shr_m_record_of_loc.
  rewrite fexp_eq in Hn.
  assert (Hpow : 2 ^ (- e) = 2 ^ Zpos n * 2 ^ (- (e + Zpos n))).
  { rewrite <- Z.pow_add_r by lia. f_equal. lia. }
  split; [apply Z.div_pos; lia|]. split; [lia|]. split.
  - apply Z.div_le_upper_bound; lia.
  - intros Hlt. apply Z.div_lt_upper_bound; lia.
Qed.

Lemma round_nearest_even_bounds m l :
  m <= round_nearest_even m l <= m + 1.
Proof. destruct l as [|[]]; simpl; try lia. destruct (Z.even m); lia. Qed.

Lemma binary_round_aux_below_one (sx : bool) (m e : Z) (l : location) :
  0 <= m < 2 ^ (- e) -> e <= 0 ->
  binary_round_aux prec emax sx m e l = S754_zero sx \/
  exists m' e', binary_round_aux prec emax sx m e l = S754_finite sx m' e'
                /\ e' <= 0 /\ Zpos m' <= 2 ^ (- e').
Proof.
  intros [H0 Hm] He. unfold binary_round_aux.
  pose proof (shr_fexp_below_one m e l H0 He ltac:(lia)) as H1.
  destruct (shr_fexp _ _ m e l) as [mrs1 e1].
  destruct H1 as (H1a & H1b & _ & H1c). specialize (H1c Hm).
  pose proof (round_nearest_even_bounds (shr_m mrs1) (loc_of_shr_record mrs1)) as Hr.
  set (m1 := round_nearest_even _ _) in *.
  pose proof (shr_fexp_below_one m1 e1 loc_Exact ltac:(lia) H1b ltac:(lia)) as H2.
  destruct (shr_fexp _ _ m1 e1 loc_Exact) as [mrs2 e2].
  destruct H2 as (H2a & H2b & H2c & _).
  destruct (shr_m mrs2) as [|p|p] eqn:Hm2; [by left| |lia].
  right. exists p, e2.
  replace (e2 <=? emax - prec) with true; [done|].
  symmetry. apply Z.leb_le. lia.
Qed.

Lemma SFdiv_core_below_one (a b : positive) :
  (a < b)%positive ->
  let '(q, e', _) := SFdiv_core_binary prec emax (Zpos a) 0 (Zpos b) 0 in
  0 <= q < 2 ^ (- e') /\ e' <= 0.
Proof.
  intros Hab. unfold SFdiv_core_binary.
  set (e' := Z.min _ (0 - 0)).
  assert (He : e' <= 0) by (subst e'; lia).
  set (m' := match 0 - 0 - e' with Z0 => Zpos a | Zpos _ => _ | Zneg _ => 0 end).
  assert (Hm' : m' = Zpos a * 2 ^ (- e')).
  { subst m'. destruct (0 - 0 - e') as [|s|s] eqn:Hs.
    - replace (- e') with 0 by lia. lia.
    - rewrite Z.shiftl_mul_pow2 by lia. f_equal. f_equal. lia.
    - lia. }
  pose proof (Z.div_eucl_eq m' (Zpos b) ltac:(lia)) as Heq.
  pose proof (Z.mod_pos_bound m' (Zpos b) ltac:(lia)) as Hmod.
  unfold Z.modulo in Hmod.
  destruct (Z.div_eucl m' (Zpos b)) as [q r].
  assert (Hpow : 0 < 2 ^ (- e')) by (apply Z.pow_pos_nonneg; lia).
  split; [|exact He]. split; nia.
Qed.

End Rounding.

(** A count divided by itself is the double 1.0. *)
Lemma fdiv_self (a : positive) :
  PyFloat.fdiv (S754_finite false a 0) (S754_finite false a 0)
  = S754_finite false 4503599627370496 (-52).
Proof.
  unfold PyFloat.fdiv, SFdiv, SFdiv_core_binary.
  replace (Zdigits2 (Zpos a) + 0 - (Zdigits2 (Zpos a) + 0)) with 0 by lia.
  change (Z.min (fexp PyFloat.prec PyFloat.emax 0) (0 - 0)) with (-53).
  change (0 - 0 - -53) with 53.
  rewrite Z.shiftl_mul_pow2 by lia.
  assert (Hd : Z.div_eucl (Zpos a * 2 ^ 53) (Zpos a) = (2 ^ 53, 0)).
  { pose proof (Z.div_mul (2 ^ 53) (Zpos a) ltac:(lia)) as Hq.
    pose proof (Z.mod_mul (2 ^ 53) (Zpos a) ltac:(lia)) as Hr.
    unfold Z.div, Z.modulo in Hq, Hr. rewrite (Z.mul_comm (Zpos a)).
    destruct (Z.div_eucl (2 ^ 53 * Zpos a) (Zpos a)) as [q r].
    by rewrite Hq, Hr. }
  rewrite Hd.
  replace (new_location (Zpos a) 0) with loc_Exact.
  2:{ unfold new_location. by destruct (Z.even (Zpos a)). }
  vm_compute. reflexivity.
Qed.

(** A count divided by a count that is not smaller: the quotient is a
    double (no exception) and lies between 0 and 1. *)
Lemma truediv_unit_interval (a b : Z) :
  0 <= a <= b -> 0 < b ->
  exists f, PyFloat.truediv a b = Ok f /\ (0 <= PyFloat.to_Q f <= 1)%Q.
Proof.
  intros [Ha Hab] Hb. unfold PyFloat.truediv.
  replace (b =? 0) with false by (symmetry; apply Z.eqb_neq; lia).
  destruct b as [|b|b]; try lia.
  destruct a as [|a|a]; try lia.
  { eexists. split; [reflexivity|]. by split. }
  cbn [PyFloat.raw_of_Z].
  destruct (decide (a = b)) as [->|Hne].
  { rewrite fdiv_self. eexists. split; [reflexivity|]. by split. }
  assert (Hlt : (a < b)%positive) by lia.
  pose proof (SFdiv_core_below_one PyFloat.prec PyFloat.emax a b Hlt) as Hcore.
  unfold PyFloat.fdiv, SFdiv.
  destruct (SFdiv_core_binary _ _ _ _ _ _) as [[q e'] l].
  destruct Hcore as [Hq He].
  destruct (binary_round_aux_below_one PyFloat.prec PyFloat.emax
              ltac:(done) ltac:(done) (xorb false false) q e' l Hq He)
    as [Hz | (m' & e2 & Hf & He2 & Hm2)].
  - rewrite Hz. eexists. split; [reflexivity|]. by split.
  - rewrite Hf. eexists. split; [reflexivity|].
    cbn [PyFloat.to_Q xorb].
    destruct (0 <=? e2) eqn:Hsign.
    + apply Z.leb_le in Hsign. assert (e2 = 0) as -> by lia.
      simpl in Hm2. unfold Qle; simpl. lia.
    + assert (Hpos : 0 < 2 ^ (- e2)) by (apply Z.pow_pos_nonneg; lia).
      unfold Qle; simpl. rewrite Z2Pos.id by lia. lia.
Qed.

(** ** Statistics *)

Lemma get_game_stats_run gt w lv gp gw cd h :
  game_of w gt = Some (full_record (Some lv) gp gw cd h) ->
  get_game_stats gt w
  = (rate ← (if 0 <? gp then f ← PyFloat.truediv gw gp; mret (PyFloatV f)
             else mret (PyInt 0));
     mret {| stats_level := lv; stats_games_played := gp; stats_games_won := gw;
             win_rate := rate; stats_current_difficulty := cd;
             recent_performance := map won (slice_last 10 h) |},
     w).
Proof.
  intros Hr. unfold get_game_stats.
  rewrite bind_run, (game_data_of_run _ _ _ Hr).
  cbn [full_record games_played games_won level current_difficulty history].
  rewrite bind_run, subscript_run, bind_run, subscript_run, bind_run, subscript_run.
  assert (Hrecent : _get_recent_performance gt 10 w = (Ok (map won (slice_last 10 h)), w)).
  { unfold _get_recent_performance. by rewrite bind_run, (game_data_of_run _ _ _ Hr). }
  rewrite bind_run.
  destruct (0 <? gp).
  - rewrite bind_run, lift_run.
    destruct (PyFloat.truediv gw gp) as [f|e]; [|reflexivity].
    rewrite mret_run, bind_run, subscript_run, bind_run, Hrecent. reflexivity.
  - rewrite mret_run, bind_run, subscript_run, bind_run, Hrecent. reflexivity.
Qed.

(** C8: for a record with all its keys get_game_stats changes nothing;
    with no game played it returns the integer 0 as win rate, without
    dividing and without raising; with games played the win rate is
    the double quotient games_won / games_played; and when
    0 <= games_won <= games_played the call succeeds with a win rate
    between 0 and 1. *)
Theorem get_game_stats_win_rate gt w lv gp gw cd h :
  game_of w gt = Some (full_record (Some lv) gp gw cd h) ->
  (gp <= 0 ->
   exists st, get_game_stats gt w = (Ok st, w) /\ win_rate st = PyInt 0) /\
  (0 < gp -> forall f, PyFloat.truediv gw gp = Ok f ->
   exists st, get_game_stats gt w = (Ok st, w) /\ win_rate st = PyFloatV f) /\
  (0 <= gw <= gp ->
   exists st, get_game_stats gt w = (Ok st, w) /\
              (0 <= number_to_Q (win_rate st) <= 1)%Q).
Proof.
  intros Hr. rewrite (get_game_stats_run _ _ _ _ _ _ _ Hr).
  split; [|split].
  - intros Hgp. replace (0 <? gp) with false by (symmetry; apply Z.ltb_ge; lia).
    eexists. split; reflexivity.
  - intros Hgp f Hf. replace (0 <? gp) with true by (symmetry; apply Z.ltb_lt; lia).
    rewrite Hf. eexists. split; reflexivity.
  - intros Hgw. destruct (0 <? gp) eqn:Hgp.
    + apply Z.ltb_lt in Hgp.
      destruct (truediv_unit_interval gw gp Hgw Hgp) as (f & Hf & Hbound).
      rewrite Hf. eexists. split; [reflexivity|]. exact Hbound.
    + eexists. split; [reflexivity|]. by split.
Qed.

(** Four wins out of four games. *)
Lemma get_game_stats_win_rate_witness :
  game_of (sample_world four_wins None) "counting"
  = Some (full_record (Some 1) 4 4 5 four_wins) /\
  0 <= 4 <= 4 /\
  exists st, get_game_stats "counting" (sample_world four_wins None)
             = (Ok st, sample_world four_wins None) /\
             (0 <= number_to_Q (win_rate st) <= 1)%Q.
Proof.
  assert (H : game_of (sample_world four_wins None) "counting"
              = Some (full_record (Some 1) 4 4 5 four_wins)) by reflexivity.
  assert (Hc : 0 <= 4 <= 4) by lia.
  split; [exact H|]. split; [exact Hc|].
  exact (proj2 (proj2 (get_game_stats_win_rate "counting" _ 1 4 4 5 four_wins H)) Hc).
Defined.

(** ** Age-derived base difficulty *)

Lemma age_table_spec (months : Z) :
  (months < 42 -> age_table months = 1) /\
  (42 <= months < 48 -> age_table months = 2) /\
  (48 <= months < 54 -> age_table months = 3) /\
  (54 <= months < 60 -> age_table months = 4) /\
  (60 <= months < 66 -> age_table months = 5) /\
  (66 <= months < 72 -> age_table months = 6) /\
  (72 <= months < 84 -> age_table months = 7) /\
  (84 <= months < 96 -> age_table months = 8) /\
  (96 <= months < 108 -> age_table months = 9) /\
  (108 <= months -> age_table months = 10).
Proof.
  unfold age_table.
  repeat match goal with
         | |- context [?a <? ?b] => destruct (Z.ltb_spec a b)
         end; repeat split; intros; lia.
Qed.

Lemma age_table_range months : 1 <= age_table months <= 10.
Proof.
  unfold age_table.
  repeat match goal with
         | |- context [?a <? ?b] => destruct (Z.ltb_spec a b)
         end; lia.
Qed.

Lemma age_base_difficulty_range bd today : 1 <= age_base_difficulty bd today <= 10.
Proof.
  unfold age_base_difficulty. destruct bd as [[|c s]|]; try lia.
  destruct (parse_birth_date _); [apply age_table_range | lia].
Qed.

Lemma nudge_ok base r :
  counters_in_range r -> exists v, nudge base r = Ok v.
Proof.
  unfold counters_in_range, nudge. intros H.
  destruct (3 <? _) eqn:Hp; [|by eexists].
  apply Z.ltb_lt in Hp.
  destruct (truediv_unit_interval _ _ H ltac:(lia)) as (f & -> & _).
  by eexists.
Qed.

Lemma get_difficulty_run game_type today w g :
  default ∅ (difficulty_settings (data w)) !! game_type = None ->
  games (data w) = Some g ->
  get_difficulty game_type today w
  = (base ← nudge (age_base_difficulty (birth_date (data w)) today) (g !! game_type);
     mret (clamp_1_10 base), w).
Proof.
  intros Hov Hg. unfold get_difficulty. rewrite bind_run. cbn [get_data].
  rewrite Hov, bind_run, Hg, subscript_run, bind_run, lift_run.
  by destruct (nudge _ _).
Qed.

Lemma nudge_raise_independent b1 b2 r e :
  nudge b1 r = Raise e -> nudge b2 r = Raise e.
Proof.
  unfold nudge. destruct (3 <? _); [|discriminate].
  destruct (PyFloat.truediv _ _); [discriminate|]. by intros [= ->].
Qed.

Lemma get_difficulty_raise_independent game_type today w bd e :
  default ∅ (difficulty_settings (data w)) !! game_type = None ->
  fst (get_difficulty game_type today w) = Raise e ->
  fst (get_difficulty game_type today (with_data (set_birth_date bd (data w)) w)) = Raise e.
Proof.
  intros Hov. destruct (games (data w)) as [g|] eqn:Hg.
  - rewrite (get_difficulty_run _ _ _ g Hov Hg).
    rewrite (get_difficulty_run game_type today
               (with_data (set_birth_date bd (data w)) w) g Hov Hg).
    cbn [fst]. destruct (nudge _ _) as [v|e'] eqn:Hn; [discriminate|].
    intros [= ->]. by rewrite (nudge_raise_independent _ _ _ _ Hn).
  - unfold get_difficulty. rewrite !bind_run. cbn [get_data].
    change (difficulty_settings (data (with_data (set_birth_date bd (data w)) w)))
      with (difficulty_settings (data w)).
    rewrite Hov, !bind_run.
    change (games (data (with_data (set_birth_date bd (data w)) w)))
      with (games (data w)).
    by rewrite Hg.
Qed.

(** C5: with no override, the base difficulty that get_difficulty
    starts from is the step table applied to
    (today.year - birth.year) * 12 + today.month - birth.month when
    birth_date parses to a date; 42 months give 2 and 41 months give 1;
    an absent, empty or unparsable birth_date gives 5.  The call hands
    that base to the win-rate nudge and the final clamp, and with at
    most three games played it returns the base itself.  No birth_date
    makes the call raise: an exception it raises is raised for every
    other birth_date too, and on a profile with its games dictionary
    and counters 0 <= games_won <= games_played it returns a level
    between 1 and 10. *)
Theorem get_difficulty_age_base game_type today w :
  default ∅ (difficulty_settings (data w)) !! game_type = None ->
  let base := age_base_difficulty (birth_date (data w)) today in
  (forall s birth,
     birth_date (data w) = Some s -> parse_birth_date s = Some birth ->
     let months := (year today - year birth) * 12 + month today - month birth in
     base = age_table months /\
     (months < 42 -> base = 1) /\
     (42 <= months < 48 -> base = 2) /\
     (48 <= months < 54 -> base = 3) /\
     (54 <= months < 60 -> base = 4) /\
     (60 <= months < 66 -> base = 5) /\
     (66 <= months < 72 -> base = 6) /\
     (72 <= months < 84 -> base = 7) /\
     (84 <= months < 96 -> base = 8) /\
     (96 <= months < 108 -> base = 9) /\
     (108 <= months -> base = 10)) /\
  age_table 42 = 2 /\ age_table 41 = 1 /\
  (birth_date (data w) = None \/
   (exists s, birth_date (data w) = Some s /\ parse_birth_date s = None) ->
   base = 5) /\
  (forall g, games (data w) = Some g ->
     get_difficulty game_type today w
     = (b ← nudge base (g !! game_type); mret (clamp_1_10 b), w) /\
     (default 0 (g !! game_type ≫= games_played) <= 3 ->
      get_difficulty game_type today w = (Ok base, w)) /\
     (counters_in_range (g !! game_type) ->
      exists v, get_difficulty game_type today w = (Ok v, w) /\ 1 <= v <= 10)) /\
  (forall bd bd' e,
     fst (get_difficulty game_type today (with_data (set_birth_date bd (data w)) w))
     = Raise e ->
     fst (get_difficulty game_type today (with_data (set_birth_date bd' (data w)) w))
     = Raise e).
Proof.
  intros Hov base.
  split; [|split; [reflexivity|split; [reflexivity|split; [|split]]]].
  - intros s birth Hs Hparse months. subst base. rewrite Hs.
    assert (Hbase : age_base_difficulty (Some s) today = age_table months).
    { unfold age_base_difficulty. destruct s as [|c s]; [discriminate|].
      by rewrite Hparse. }
    rewrite Hbase. split; [reflexivity|]. apply age_table_spec.
  - subst base. intros [-> | (s & -> & Hs)]; [reflexivity|].
    unfold age_base_difficulty. destruct s as [|c s]; [reflexivity|]. by rewrite Hs.
  - intros g Hg. split; [by apply get_difficulty_run|]. split.
    + intros Hplayed. rewrite (get_difficulty_run _ _ _ _ Hov Hg). fold base.
      unfold nudge. replace (3 <? _) with false by (symmetry; apply Z.ltb_ge; lia).
      pose proof (age_base_difficulty_range (birth_date (data w)) today) as Hrange.
      fold base in Hrange.
      change ((Ok base ≫= λ b, mret (clamp_1_10 b), w) = (Ok base, w)).
      cbn. unfold clamp_1_10. do 2 f_equal. lia.
    + intros Hsane. rewrite (get_difficulty_run _ _ _ _ Hov Hg). fold base.
      destruct (nudge_ok base _ Hsane) as [v ->].
      exists (clamp_1_10 v). split; [reflexivity|]. unfold clamp_1_10. lia.
  - intros bd bd' e Hraise.
    apply (get_difficulty_raise_independent game_type today _ bd' e) in Hraise;
      [|exact Hov].
    exact Hraise.
Qed.

(** Born 2020-05-17, asked on 2023-11-01: 42 months, base 2. *)
Lemma get_difficulty_age_base_witness :
  default ∅ (difficulty_settings (data (sample_world [] None))) !! "counting" = None /\
  games (data (sample_world [] None)) = Some (sample_games []) /\
  parse_birth_date "2020-05-17" = Some {| year := 2020; month := 5; day := 17 |} /\
  age_base_difficulty (birth_date (data (sample_world [] None))) sample_today = 2 /\
  exists v, get_difficulty "counting" sample_today (sample_world [] None)
            = (Ok v, sample_world [] None) /\ 1 <= v <= 10.
Proof.
  assert (Hov : default ∅ (difficulty_settings (data (sample_world [] None)))
                  !! "counting" = None) by reflexivity.
  assert (Hg : games (data (sample_world [] None)) = Some (sample_games []))
    by reflexivity.
  assert (Hparse : parse_birth_date "2020-05-17"
                   = Some {| year := 2020; month := 5; day := 17 |}) by reflexivity.
  split; [exact Hov|]. split; [exact Hg|]. split; [exact Hparse|].
  pose proof (get_difficulty_age_base "counting" sample_today _ Hov) as H.
  cbv zeta in H. destruct H as (Htable & _ & _ & _ & Hgames & _).
  split.
  - destruct (Htable "2020-05-17" _ eq_refl Hparse) as (_ & _ & H42 & _).
    apply H42. vm_compute. split; [discriminate | reflexivity].
  - destruct (Hgames _ Hg) as (_ & _ & Hok).
    apply Hok. vm_compute. split; discriminate.
Defined.

(** * Further properties *)

(** ** Runs of recorded games *)

Lemma update_game_results_state gt calls :
  forall w lv gp gw cd h,
    game_of w gt = Some (full_record lv gp gw cd h) ->
    exists w' h',
      update_game_results gt calls w = (Ok tt, w') /\
      game_of w' gt
      = Some (full_record lv (gp + Z.of_nat (length calls))
                (gw + Z.of_nat (won_calls calls))
                (difficulty_after cd h calls) h').
Proof.
  induction calls as [|c calls IH]; intros w lv gp gw cd h Hr.
  - exists w, h. split; [reflexivity|]. rewrite Hr. cbn. do 2 f_equal; lia.
  - pose proof (game_of_games _ _ _ Hr) as Hg.
    cbn [update_game_results]. rewrite bind_run.
    rewrite (update_game_result_run _ _ _ _ _ _ _ _ _ _ _ _ Hr).
    set (e := history_entry_of _ _ _ _ _ cd).
    set (w1 := saved _ _).
    assert (H1 : game_of w1 gt = Some (recorded lv gp gw cd h e)).
    { subst w1. by rewrite game_of_saved, game_of_store_eq. }
    destruct (IH w1 _ _ _ _ _ H1) as (w' & h' & Hrun & Hrec).
    exists w', h'. split; [exact Hrun|]. rewrite Hrec.
    cbn [difficulty_after]. fold e. unfold won_calls. cbn [filter length won history_entry_of e].
    f_equal. f_equal.
    + cbn [length]. lia.
    + rewrite filter_cons. destruct (call_won c) eqn:Hc.
      * rewrite decide_True by done. cbn [length]. lia.
      * rewrite decide_False by done. lia.
Qed.

Lemma difficulty_after_range calls :
  forall cd h, 1 <= cd <= 10 -> 1 <= difficulty_after cd h calls <= 10.
Proof.
  induction calls as [|c calls IH]; intros cd h Hcd; cbn [difficulty_after]; [done|].
  apply IH. by apply adjust_rule_range.
Qed.

(** X1: a stored difficulty between 1 and 10 stays between 1 and 10
    through any run of update_game_result calls on the game type. *)
Theorem difficulty_stays_in_range gt calls w lv gp gw cd h :
  game_of w gt = Some (full_record lv gp gw cd h) ->
  1 <= cd <= 10 ->
  exists w' r' d,
    update_game_results gt calls w = (Ok tt, w') /\
    game_of w' gt = Some r' /\
    current_difficulty r' = Some d /\ 1 <= d <= 10.
Proof.
  intros Hr Hcd.
  destruct (update_game_results_state gt calls _ _ _ _ _ _ Hr) as (w' & h' & Hrun & Hrec).
  eexists w', _, _. split; [exact Hrun|]. split; [exact Hrec|].
  split; [reflexivity|]. by apply difficulty_after_range.
Qed.

(** Three more wins after four, from difficulty 5. *)
Lemma difficulty_stays_in_range_witness :
  game_of (sample_world four_wins None) "counting"
  = Some (full_record (Some 1) 4 4 5 four_wins) /\
  1 <= 5 <= 10 /\
  exists w' r' d,
    update_game_results "counting" (replicate 3 sample_call) (sample_world four_wins None)
    = (Ok tt, w') /\
    game_of w' "counting" = Some r' /\
    current_difficulty r' = Some d /\ 1 <= d <= 10.
Proof.
  split; [reflexivity|]. split; [lia|].
  apply (difficulty_stays_in_range "counting" (replicate 3 sample_call)
           (sample_world four_wins None) (Some 1) 4 4 5 four_wins); [reflexivity|lia].
Defined.

(** X2: a run of calls adds the number of calls to games_played and
    the number of won calls to games_won; counters with
    0 <= games_won <= games_played keep that relation. *)
Theorem counters_follow_calls gt calls w lv gp gw cd h :
  game_of w gt = Some (full_record lv gp gw cd h) ->
  exists w' r',
    update_game_results gt calls w = (Ok tt, w') /\
    game_of w' gt = Some r' /\
    games_played r' = Some (gp + Z.of_nat (length calls)) /\
    games_won r' = Some (gw + Z.of_nat (won_calls calls)) /\
    (0 <= gw <= gp -> counters_in_range (Some r')).
Proof.
  intros Hr.
  destruct (update_game_results_state gt calls _ _ _ _ _ _ Hr) as (w' & h' & Hrun & Hrec).
  eexists w', _. split; [exact Hrun|]. split; [exact Hrec|].
  split; [reflexivity|]. split; [reflexivity|].
  intros Hc. unfold counters_in_range. cbn.
  assert (won_calls calls <= length calls)%nat by apply length_filter.
  lia.
Qed.

(** Three wins on top of four games, all won. *)
Lemma counters_follow_calls_witness :
  game_of (sample_world four_wins None) "counting"
  = Some (full_record (Some 1) 4 4 5 four_wins) /\
  exists w' r',
    update_game_results "counting" (replicate 3 sample_call) (sample_world four_wins None)
    = (Ok tt, w') /\
    game_of w' "counting" = Some r' /\
    games_played r' = Some 7 /\ games_won r' = Some 7.
Proof.
  split; [reflexivity|].
  destruct (counters_follow_calls "counting" (replicate 3 sample_call)
              (sample_world four_wins None) (Some 1) 4 4 5 four_wins eq_refl)
    as (w' & r' & Hrun & Hr & Hp & Hw & _).
  exists w', r'. split; [exact Hrun|]. split; [exact Hr|]. split; [exact Hp | exact Hw].
Defined.

(** ** Streaks *)

Lemma wins_all (l : list HistoryEntry) :
  Forall (fun e => won e = true) l -> wins l = length l.
Proof.
  unfold wins. induction 1 as [|e l He Hl IH]; [done|].
  rewrite filter_cons, decide_True by done. cbn. by rewrite IH.
Qed.

Lemma wins_none (l : list HistoryEntry) :
  Forall (fun e => won e = false) l -> wins l = 0%nat.
Proof.
  unfold wins. induction 1 as [|e l He Hl IH]; [done|].
  rewrite filter_cons, decide_False by (rewrite He; done). exact IH.
Qed.

Lemma ends_with_snoc b k h e :
  ends_with b k h -> won e = b -> (k < 50)%nat ->
  ends_with b (S k) (slice_last 50 (h ++ [e])).
Proof.
  intros [Hlen Hall] He Hk. split.
  - rewrite slice_last_length, length_app. cbn. lia.
  - rewrite slice_last_slice_last by lia. rewrite slice_last_snoc.
    apply Forall_app. split; [exact Hall|]. by constructor.
Qed.

Lemma ends_with_weaken b k k' h :
  ends_with b k h -> (k' <= k)%nat -> ends_with b k' h.
Proof.
  intros [Hlen Hall] Hk. split; [lia|].
  rewrite <- (slice_last_slice_last k' k) by lia.
  unfold slice_last at 1. by apply Forall_drop.
Qed.

(** With four wins at the end of the history, a further win raises the
    difficulty by one level, up to ten. *)
Lemma adjust_rule_fifth_win cd h e :
  ends_with true 4 h -> won e = true ->
  adjust_rule cd (slice_last 50 (h ++ [e])) = Z.min (cd + 1) 10.
Proof.
  intros H He.
  destruct (ends_with_snoc true 4 h e H He ltac:(lia)) as [Hlen Hall].
  set (h' := slice_last 50 (h ++ [e])) in *.
  unfold adjust_rule. replace (length h' <? 5)%nat with false
    by (symmetry; apply Nat.ltb_ge; lia).
  rewrite (wins_all _ Hall), slice_last_length.
  replace (length h' `min` 5)%nat with 5%nat by lia. reflexivity.
Qed.

Lemma adjust_rule_fifth_loss cd h e :
  ends_with false 4 h -> won e = false ->
  adjust_rule cd (slice_last 50 (h ++ [e])) = Z.max (cd - 1) 1.
Proof.
  intros H He.
  destruct (ends_with_snoc false 4 h e H He ltac:(lia)) as [Hlen Hall].
  set (h' := slice_last 50 (h ++ [e])) in *.
  unfold adjust_rule. replace (length h' <? 5)%nat with false
    by (symmetry; apply Nat.ltb_ge; lia).
  rewrite (wins_none _ Hall). reflexivity.
Qed.

Lemma difficulty_after_wins calls :
  forall cd h,
    cd <= 10 ->
    ends_with true 4 h -> Forall (fun c => call_won c = true) calls ->
    difficulty_after cd h calls = Z.min (cd + Z.of_nat (length calls)) 10.
Proof.
  induction calls as [|c calls IH]; intros cd h Hcd Hh Hall;
    cbn [difficulty_after length].
  - lia.
  - inversion Hall as [|? ? Hc Hrest]; subst.
    set (e := history_entry_of _ _ _ _ _ cd).
    assert (He : won e = true) by exact Hc.
    rewrite (adjust_rule_fifth_win cd h e Hh He).
    rewrite IH; [lia|lia| |exact Hrest].
    apply (ends_with_weaken true 5); [|lia]. apply ends_with_snoc; [done|done|lia].
Qed.

Lemma difficulty_after_losses calls :
  forall cd h,
    1 <= cd ->
    ends_with false 4 h -> Forall (fun c => call_won c = false) calls ->
    difficulty_after cd h calls = Z.max (cd - Z.of_nat (length calls)) 1.
Proof.
  induction calls as [|c calls IH]; intros cd h Hcd Hh Hall;
    cbn [difficulty_after length].
  - lia.
  - inversion Hall as [|? ? Hc Hrest]; subst.
    set (e := history_entry_of _ _ _ _ _ cd).
    assert (He : won e = false) by exact Hc.
    rewrite (adjust_rule_fifth_loss cd h e Hh He).
    rewrite IH; [lia|lia| |exact Hrest].
    apply (ends_with_weaken false 5); [|lia]. apply ends_with_snoc; [done|done|lia].
Qed.

(** After four calls of one outcome the history ends with four entries
    of that outcome, and the difficulty is still one of the levels. *)
Lemma difficulty_after_four b c1 c2 c3 c4 rest cd h :
  1 <= cd <= 10 ->
  Forall (fun c => call_won c = b) [c1; c2; c3; c4] ->
  exists cd' h',
    1 <= cd' <= 10 /\ ends_with b 4 h' /\
    difficulty_after cd h (c1 :: c2 :: c3 :: c4 :: rest) = difficulty_after cd' h' rest.
Proof.
  intros Hcd Hall.
  apply Forall_cons in Hall as [H1 Hall]. apply Forall_cons in Hall as [H2 Hall].
  apply Forall_cons in Hall as [H3 Hall]. apply Forall_cons in Hall as [H4 _].
  cbn [difficulty_after].
  eexists _, _. split; [|split; [|reflexivity]].
  - by do 4 apply adjust_rule_range.
  - do 4 (apply ends_with_snoc; [|done|lia]).
    split; [lia|]. unfold slice_last. rewrite Nat.sub_0_r, drop_all. constructor.
Qed.

(** X3: thirteen or more wins in a row bring the stored difficulty to
    10, and thirteen or more losses in a row bring it to 1, from any
    level and any earlier history. *)
Theorem streak_reaches_the_end gt calls w lv gp gw cd h (b : bool) :
  game_of w gt = Some (full_record lv gp gw cd h) ->
  1 <= cd <= 10 ->
  (13 <= length calls)%nat ->
  Forall (fun c => call_won c = b) calls ->
  exists w' r',
    update_game_results gt calls w = (Ok tt, w') /\
    game_of w' gt = Some r' /\
    current_difficulty r' = Some (if b then 10 else 1).
Proof.
  intros Hr Hcd Hlen Hall.
  destruct (update_game_results_state gt calls _ _ _ _ _ _ Hr) as (w' & h' & Hrun & Hrec).
  eexists w', _. split; [exact Hrun|]. split; [exact Hrec|].
  cbn [current_difficulty full_record]. f_equal.
  destruct calls as [|c1 [|c2 [|c3 [|c4 rest]]]]; cbn [length] in Hlen; try lia.
  assert (Hfour : Forall (fun c => call_won c = b) [c1; c2; c3; c4]).
  { repeat (apply Forall_cons in Hall as [? Hall]). repeat constructor; done. }
  assert (Hrest : Forall (fun c => call_won c = b) rest).
  { repeat (apply Forall_cons in Hall as [? Hall]). exact Hall. }
  destruct (difficulty_after_four b c1 c2 c3 c4 rest cd h Hcd Hfour)
    as (cd' & h4 & Hcd' & Hends & ->).
  destruct b.
  - rewrite (difficulty_after_wins rest cd' h4 ltac:(lia) Hends Hrest). lia.
  - rewrite (difficulty_after_losses rest cd' h4 ltac:(lia) Hends Hrest). lia.
Qed.

(** Thirteen wins from difficulty 5. *)
Lemma streak_reaches_the_end_witness :
  game_of (sample_world four_wins None) "counting"
  = Some (full_record (Some 1) 4 4 5 four_wins) /\
  1 <= 5 <= 10 /\
  (13 <= length (replicate 13 sample_call))%nat /\
  Forall (fun c => call_won c = true) (replicate 13 sample_call) /\
  exists w' r',
    update_game_results "counting" (replicate 13 sample_call) (sample_world four_wins None)
    = (Ok tt, w') /\
    game_of w' "counting" = Some r' /\
    current_difficulty r' = Some 10.
Proof.
  assert (Hall : Forall (fun c => call_won c = true) (replicate 13 sample_call))
    by (apply Forall_replicate; reflexivity).
  split; [reflexivity|]. split; [lia|]. split; [cbn; lia|]. split; [exact Hall|].
  apply (streak_reaches_the_end "counting" (replicate 13 sample_call)
           (sample_world four_wins None) (Some 1) 4 4 5 four_wins true);
    [reflexivity | lia | cbn; lia | exact Hall].
Defined.

(** ** What a recorded game leaves alone, and what it raises *)

Lemma data_store_game gt r w g :
  games (data w) = Some g ->
  data (store_game gt r w) = set_games (<[gt := r]> g) (data w).
Proof. intros Hg. unfold store_game. by rewrite Hg. Qed.

(** X4: update_game_result touches one record only.  The records of
    the other game types, the coins, the stars, the name, the birth
    date, the overrides, the achievements and the session are as
    before; last_played is the time of the call and the save file
    holds the new data. *)
Theorem update_game_result_frame gt won_ score_ time_taken_ details_ now w lv gp gw cd h :
  game_of w gt = Some (full_record lv gp gw cd h) ->
  exists w',
    update_game_result gt won_ score_ time_taken_ details_ now w = (Ok tt, w') /\
    (forall gt', gt' <> gt -> game_of w' gt' = game_of w gt') /\
    total_coins (data w') = total_coins (data w) /\
    total_stars (data w') = total_stars (data w) /\
    player_name (data w') = player_name (data w) /\
    birth_date (data w') = birth_date (data w) /\
    difficulty_settings (data w') = difficulty_settings (data w) /\
    achievements (data w') = achievements (data w) /\
    current_game w' = current_game w /\
    last_played (data w') = Some now /\
    save_file w' = FileJson (data w') /\
    save_count w' = S (save_count w).
Proof.
  intros Hr. rewrite (update_game_result_run _ _ _ _ _ _ _ _ _ _ _ _ Hr).
  destruct (game_of_games _ _ _ Hr) as [g Hg].
  eexists. split; [reflexivity|].
  split.
  { intros gt' Hne. rewrite game_of_saved. by apply game_of_store_ne. }
  unfold saved. cbn. rewrite (data_store_game _ _ _ _ Hg). cbn.
  unfold store_game. rewrite Hg. cbn. repeat split; reflexivity.
Qed.

(** A counting game leaves the three music records alone. *)
Lemma update_game_result_frame_witness :
  game_of (sample_world four_wins None) "counting"
  = Some (full_record (Some 1) 4 4 5 four_wins) /\
  exists w',
    update_game_result "counting" true 80 30000000 None 7 (sample_world four_wins None)
    = (Ok tt, w') /\
    game_of w' "rhythm" = Some zero_record /\
    total_coins (data w') = Some 0.
Proof.
  split; [reflexivity|].
  destruct (update_game_result_frame "counting" true 80 30000000 None 7
              (sample_world four_wins None) (Some 1) 4 4 5 four_wins eq_refl)
    as (w' & Hrun & Hothers & Hcoins & _).
  exists w'. split; [exact Hrun|]. split; [|exact Hcoins].
  rewrite (Hothers "rhythm"); [reflexivity | discriminate].
Defined.

Lemma game_data_of_missing gt g w :
  games (data w) = Some g -> g !! gt = None ->
  game_data_of gt w = (Raise (KeyError gt), w).
Proof.
  intros Hg Hgt. unfold game_data_of. rewrite bind_run. cbn [get_data].
  rewrite bind_run, Hg, subscript_run, Hgt. reflexivity.
Qed.

(** X5: a game type without a record.  update_game_result raises
    KeyError on the game type and changes nothing; end_game on a
    session of that type raises the same way, so the session stays
    open, nothing is rewarded and nothing is saved. *)
Theorem unknown_game_type_raises gt g w :
  games (data w) = Some g ->
  g !! gt = None ->
  (forall won_ score_ time_taken_ details_ now,
     update_game_result gt won_ score_ time_taken_ details_ now w
     = (Raise (KeyError gt), w)) /\
  (forall session won_ score_ details_ now,
     current_game w = Some session -> type session = gt ->
     end_game won_ score_ details_ now w = (Raise (KeyError gt), w)).
Proof.
  intros Hg Hgt.
  assert (Hraise : forall won_ score_ time_taken_ details_ now,
            update_game_result gt won_ score_ time_taken_ details_ now w
            = (Raise (KeyError gt), w)).
  { intros. unfold update_game_result.
    by rewrite bind_run, (game_data_of_missing _ _ _ Hg Hgt). }
  split; [exact Hraise|].
  intros session won_ score_ details_ now Hcg Htype.
  unfold end_game. rewrite bind_run. cbn [get_current_game]. rewrite Hcg.
  rewrite bind_run, Htype, Hraise. reflexivity.
Qed.

(** The drawing game of the menu has no record in the profile. *)
Lemma unknown_game_type_raises_witness :
  games (data (sample_world four_wins None)) = Some (sample_games four_wins) /\
  sample_games four_wins !! "drawing" = None /\
  update_game_result "drawing" true 80 30000000 None 7 (sample_world four_wins None)
  = (Raise (KeyError "drawing"), sample_world four_wins None).
Proof.
  split; [reflexivity|]. split; [reflexivity|].
  exact (proj1 (unknown_game_type_raises "drawing" (sample_games four_wins)
                  (sample_world four_wins None) eq_refl eq_refl)
           true 80 30000000 None 7).
Defined.

(** X6: a record that lacks the games_won key.  A won game raises
    KeyError on games_won after games_played has been incremented in
    memory; the history is not touched and nothing is written to the
    save file. *)
Theorem missing_games_won_key gt w g lv gp cd h score_ time_taken_ details_ now :
  games (data w) = Some g ->
  g !! gt = Some {| level := lv; games_played := Some gp; games_won := None;
                    current_difficulty := Some cd; history := Some h |} ->
  exists w',
    update_game_result gt true score_ time_taken_ details_ now w
    = (Raise (KeyError "games_won"), w') /\
    game_of w' gt ≫= games_played = Some (gp + 1) /\
    game_of w' gt ≫= history = Some h /\
    save_file w' = save_file w /\ save_count w' = save_count w.
Proof.
  intros Hg Hgt.
  assert (Hr : game_of w gt = Some {| level := lv; games_played := Some gp;
                                      games_won := None; current_difficulty := Some cd;
                                      history := Some h |}).
  { unfold game_of. rewrite Hg. exact Hgt. }
  assert (His : is_Some (games (data w))) by eauto.
  unfold update_game_result.
  rewrite bind_run, (game_data_of_run _ _ _ Hr).
  cbn [games_played games_won].
  rewrite bind_run, subscript_run, bind_run, (update_game_data_run _ _ _ _ Hr).
  rewrite bind_run. cbn [subscript]. rewrite bind_run. cbn [raise].
  eexists. split; [reflexivity|].
  rewrite game_of_store_eq by done. cbn.
  unfold store_game. rewrite Hg. by cbn.
Qed.

(** The sample profile with games_won taken out of the counting
    record. *)
Lemma missing_games_won_key_witness :
  games (data (store_game "counting" record_without_games_won
                 (sample_world four_wins None)))
  = Some (<["counting" := record_without_games_won]> (sample_games four_wins)) /\
  (<["counting" := record_without_games_won]> (sample_games four_wins)) !! "counting"
  = Some record_without_games_won /\
  exists w',
    update_game_result "counting" true 80 30000000 None 7
      (store_game "counting" record_without_games_won (sample_world four_wins None))
    = (Raise (KeyError "games_won"), w') /\
    game_of w' "counting" ≫= games_played = Some 5 /\
    save_count w' = 0%nat.
Proof.
  split; [reflexivity|]. split; [reflexivity|].
  destruct (missing_games_won_key "counting"
              (store_game "counting" record_without_games_won (sample_world four_wins None))
              (<["counting" := record_without_games_won]> (sample_games four_wins))
              (Some 1) 4 5 four_wins 80 30000000 None 7 eq_refl eq_refl)
    as (w' & Hrun & Hp & _ & _ & Hcount).
  exists w'. split; [exact Hrun|]. split; [exact Hp | exact Hcount].
Defined.

(** ** Writing through to the save file *)

Lemma bind_ok_inv {A B} (m : M A) (f : A -> M B) w b w' :
  (m ≫= f) w = (Ok b, w') -> exists a w1, m w = (Ok a, w1) /\ f a w1 = (Ok b, w').
Proof.
  rewrite bind_run. destruct (m w) as [[a|e] w1]; [eauto | discriminate].
Qed.





(** ** Achievements *)

Lemma unlock_achievement_run a now w l :
  achievements (data w) = Some l ->
  unlock_achievement a now w
  = if bool_decide (a ∈ l) then (Ok tt, w)
    else (Ok tt, saved now (with_data (set_achievements (l ++ [a]) (data w)) w)).
Proof.
  intros Hl. unfold unlock_achievement. rewrite bind_run. cbn [get_data].
  rewrite bind_run, Hl, subscript_run.
  by destruct (bool_decide (a ∈ l)).
Qed.

(** X8: unlock_achievement adds an id once.  An id that is already
    unlocked changes nothing and writes nothing; a new id goes to the
    end of the list and is saved; unlocking the same id again is then
    a no-op; a list without duplicates stays without duplicates. *)
Theorem unlock_achievement_once a now now' w l :
  achievements (data w) = Some l ->
  exists w',
    unlock_achievement a now w = (Ok tt, w') /\
    (a ∈ l -> w' = w) /\
    (a ∉ l -> achievements (data w') = Some (l ++ [a]) /\
              save_file w' = FileJson (data w')) /\
    unlock_achievement a now' w' = (Ok tt, w') /\
    (forall l', achievements (data w') = Some l' ->
                a ∈ l' /\ (NoDup l -> NoDup l')).
Proof.
  intros Hl. rewrite (unlock_achievement_run _ _ _ _ Hl).
  destruct (decide (a ∈ l)) as [Hin|Hout].
  - rewrite bool_decide_eq_true_2 by done. exists w.
    split; [done|]. split; [done|]. split; [done|]. split.
    + by rewrite (unlock_achievement_run _ _ _ _ Hl), bool_decide_eq_true_2.
    + intros l' Hl'. rewrite Hl in Hl'. by simplify_eq.
  - rewrite bool_decide_eq_false_2 by done. eexists.
    split; [reflexivity|]. split; [done|]. split; [done|]. split.
    + erewrite unlock_achievement_run by reflexivity.
      rewrite bool_decide_eq_true_2; [done|].
      apply elem_of_app. right. by apply list_elem_of_singleton.
    + intros l' [= <-].
      split; [apply elem_of_app; right; by apply list_elem_of_singleton|].
      intros Hnd. apply NoDup_app. split; [done|].
      split; [|apply NoDup_singleton]. intros x Hx Hxa.
      apply list_elem_of_singleton in Hxa. by subst.
Qed.

(** A first achievement. *)
Lemma unlock_achievement_once_witness :
  achievements (data (sample_world four_wins None)) = Some [] /\
  exists w',
    unlock_achievement "first_win" 7 (sample_world four_wins None) = (Ok tt, w') /\
    achievements (data w') = Some ["first_win"] /\
    unlock_achievement "first_win" 9 w' = (Ok tt, w').
Proof.
  split; [reflexivity|].
  destruct (unlock_achievement_once "first_win" 7 9 (sample_world four_wins None) []
              eq_refl) as (w' & Hrun & _ & Hnew & Hagain & _).
  exists w'. split; [exact Hrun|]. split; [|exact Hagain].
  apply Hnew. apply not_elem_of_nil.
Defined.

(** ** Coins and stars *)

(** X9: coins and stars add up and do not touch each other.
    add_coins a then add_coins b leaves total_coins + a + b; add_stars
    in between changes no coin; and without the total_coins key
    add_coins raises KeyError and changes nothing. *)
Theorem coins_and_stars_add_up a b s now1 now2 now3 w :
  (forall c n, total_coins (data w) = Some c -> total_stars (data w) = Some n ->
     exists w',
       (add_coins a now1;; add_stars s now2;; add_coins b now3) w = (Ok tt, w') /\
       total_coins (data w') = Some (c + a + b) /\
       total_stars (data w') = Some (n + s) /\
       games (data w') = games (data w) /\
       save_count w' = (3 + save_count w)%nat) /\
  (total_coins (data w) = None ->
     add_coins a now1 w = (Raise (KeyError "total_coins"), w)).
Proof.
  split.
  - intros c n Hc Hn.
    rewrite bind_run, (add_coins_run _ _ _ _ Hc).
    rewrite bind_run. erewrite add_stars_run by exact Hn.
    erewrite add_coins_run by reflexivity.
    eexists. split; [reflexivity|]. cbn. repeat split; f_equal; lia.
  - intros Hc. unfold add_coins. rewrite bind_run. cbn [get_data].
    by rewrite bind_run, Hc.
Qed.

(** Twelve coins, three stars, fifteen coins. *)
Lemma coins_and_stars_add_up_witness :
  total_coins (data (sample_world four_wins None)) = Some 0 /\
  total_stars (data (sample_world four_wins None)) = Some 0 /\
  exists w',
    (add_coins 12 7 ;; add_stars 3 8 ;; add_coins 15 9) (sample_world four_wins None)
    = (Ok tt, w') /\
    total_coins (data w') = Some 27 /\
    total_stars (data w') = Some 3.
Proof.
  split; [reflexivity|]. split; [reflexivity|].
  destruct (proj1 (coins_and_stars_add_up 12 15 3 7 8 9 (sample_world four_wins None))
              0 0 eq_refl eq_refl) as (w' & Hrun & Hc & Hs & _).
  exists w'. split; [exact Hrun|]. split; [exact Hc | exact Hs].
Defined.

(** ** Sessions *)

(** The world after a successful [end_game] with a session of type
    [gt]: the record written by [update_game_result], then the coins
    and the stars of a win, then the session cleared. *)
Lemma end_game_run session won_ score_ details_ now w lv gp gw cd h c s :
  current_game w = Some session ->
  game_of w (type session) = Some (full_record lv gp gw cd h) ->
  1 <= cd <= 10 ->
  total_coins (data w) = Some c ->
  total_stars (data w) = Some s ->
  exists w',
    end_game won_ score_ details_ now w = (Ok tt, w') /\
    game_of w' (type session)
    = Some (recorded lv gp gw cd h
              (history_entry_of won_ score_ (now - start_time session) details_ now cd)) /\
    (forall gt', gt' <> type session -> game_of w' gt' = game_of w gt') /\
    current_game w' = None /\
    save_file w' = FileJson (data w').
Proof.
  intros Hcg Hr Hcd Hc Hs.
  pose proof (game_of_games _ _ _ Hr) as Hg.
  unfold end_game. rewrite bind_run. cbn [get_current_game]. rewrite Hcg.
  rewrite bind_run, (update_game_result_run _ _ _ _ _ _ _ _ _ _ _ _ Hr).
  set (e := history_entry_of _ _ _ _ _ cd).
  set (r1 := recorded lv gp gw cd h e).
  set (w1 := saved now (store_game (type session) r1 w)).
  assert (H1 : game_of w1 (type session) = Some r1).
  { subst w1. by rewrite game_of_saved, game_of_store_eq. }
  assert (Hother : forall gt', gt' <> type session -> game_of w1 gt' = game_of w gt').
  { intros gt' Hne. subst w1. rewrite game_of_saved. by apply game_of_store_ne. }
  assert (Hd : current_difficulty r1 = Some (adjust_rule cd (slice_last 50 (h ++ [e]))))
    by reflexivity.
  assert (Hc1 : total_coins (data w1) = Some c).
  { subst w1. cbn. by rewrite total_coins_store. }
  assert (Hs1 : total_stars (data w1) = Some s).
  { subst w1. cbn. by rewrite total_stars_store. }
  rewrite bind_run.
  destruct won_.
  - rewrite bind_run, (game_data_of_run _ _ _ H1), bind_run, Hd, subscript_run.
    rewrite bind_run. unfold lift.
    rewrite (coins_for_level _ (adjust_rule_range _ _ Hcd)).
    rewrite bind_run, (add_coins_run _ _ _ _ Hc1).
    set (w2 := saved now _).
    assert (Hstars : forall n, add_stars n now w2
              = (Ok tt, saved now (with_data (set_total_stars (s + n) (data w2)) w2))).
    { intros n. by apply add_stars_run. }
    destruct (90 <=? score_); [|destruct (70 <=? score_)];
      rewrite Hstars; eexists; (split; [reflexivity|]);
      (split; [exact H1|]); (split; [exact Hother|]); split; reflexivity.
  - eexists. split; [reflexivity|]. split; [exact H1|]. split; [exact Hother|].
    split; reflexivity.
Qed.

Lemma end_game_clears_session won_ score_ details_ now w w' :
  end_game won_ score_ details_ now w = (Ok tt, w') -> current_game w' = None.
Proof.
  unfold end_game. intros H.
  apply bind_ok_inv in H as (cg & w1 & Hcg & H).
  cbn [get_current_game] in Hcg. injection Hcg as <- <-.
  destruct (current_game w) as [session|] eqn:Hsession.
  - apply bind_ok_inv in H as (? & ? & _ & H).
    apply bind_ok_inv in H as (? & ? & _ & H).
    by injection H as <-.
  - injection H as <-. exact Hsession.
Qed.

(** X10: a result is taken once.  Whenever end_game returns, the
    session is cleared, and a further end_game, with any arguments,
    returns at once and changes nothing: no second reward, no second
    history entry, no write. *)
Theorem end_game_only_once won_ score_ details_ now w w' :
  end_game won_ score_ details_ now w = (Ok tt, w') ->
  current_game w' = None /\
  forall won2 score2 details2 now2,
    end_game won2 score2 details2 now2 w' = (Ok tt, w').
Proof.
  intros H. apply end_game_clears_session in H.
  split; [exact H|]. intros. by apply end_game_idle.
Qed.

(** The counting game of the sample world, won with 80 points. *)
Lemma end_game_only_once_witness :
  end_game true 80 None 7 (sample_world four_wins None)
  = (Ok tt, snd (end_game true 80 None 7 (sample_world four_wins None))) /\
  end_game true 95 None 8 (snd (end_game true 80 None 7 (sample_world four_wins None)))
  = (Ok tt, snd (end_game true 80 None 7 (sample_world four_wins None))).
Proof.
  assert (H : end_game true 80 None 7 (sample_world four_wins None)
              = (Ok tt, snd (end_game true 80 None 7 (sample_world four_wins None))))
    by (vm_compute; reflexivity).
  split; [exact H|].
  exact (proj2 (end_game_only_once true 80 None 7 _ _ H) true 95 None 8).
Defined.

(** X11: start_game replaces a session that was not ended.  After
    start_game a, start_game b and end_game, the game recorded is b's,
    timed from b's start; a's record is what it was, as if a had
    never been started. *)
Theorem abandoned_session_is_forgotten a b t1 t2 won_ score_ details_ now w
    lv gp gw cd h c s :
  a <> b ->
  game_of w b = Some (full_record lv gp gw cd h) ->
  1 <= cd <= 10 ->
  total_coins (data w) = Some c ->
  total_stars (data w) = Some s ->
  exists w',
    (start_game a t1;; start_game b t2;; end_game won_ score_ details_ now) w
    = (Ok tt, w') /\
    game_of w' a = game_of w a /\
    game_of w' b
    = Some (recorded lv gp gw cd h
              (history_entry_of won_ score_ (now - t2) details_ now cd)) /\
    current_game w' = None.
Proof.
  intros Hab Hr Hcd Hc Hs.
  set (session := {| type := b; start_time := t2; session_score := 0;
                     completed := false |}).
  set (w2 := with_current_game (Some session)
               (with_current_game
                  (Some {| type := a; start_time := t1; session_score := 0;
                           completed := false |}) w)).
  change ((start_game a t1;; start_game b t2;; end_game won_ score_ details_ now) w)
    with (end_game won_ score_ details_ now w2).
  destruct (end_game_run session won_ score_ details_ now w2 lv gp gw cd h c s
              eq_refl Hr Hcd Hc Hs) as (w' & Hrun & Hb & Hother & Hcg & _).
  exists w'. split; [exact Hrun|]. split; [by apply (Hother a)|].
  split; [exact Hb|exact Hcg].
Qed.

(** The staff game is opened and left for a counting game. *)
Lemma abandoned_session_is_forgotten_witness :
  "staff_reading" <> "counting" /\
  game_of (sample_world four_wins None) "counting"
  = Some (full_record (Some 1) 4 4 5 four_wins) /\
  1 <= 5 <= 10 /\
  total_coins (data (sample_world four_wins None)) = Some 0 /\
  total_stars (data (sample_world four_wins None)) = Some 0 /\
  exists w',
    (start_game "staff_reading" 1 ;; start_game "counting" 2 ;; end_game true 80 None 7)
      (sample_world four_wins None) = (Ok tt, w') /\
    game_of w' "staff_reading" = Some zero_record /\
    current_game w' = None.
Proof.
  assert (Hne : "staff_reading" <> "counting") by discriminate.
  split; [exact Hne|]. split; [reflexivity|]. split; [lia|].
  split; [reflexivity|]. split; [reflexivity|].
  destruct (abandoned_session_is_forgotten "staff_reading" "counting" 1 2 true 80 None 7
              (sample_world four_wins None) (Some 1) 4 4 5 four_wins 0 0
              Hne eq_refl ltac:(lia) eq_refl eq_refl)
    as (w' & Hrun & Ha & _ & Hcg).
  exists w'. split; [exact Hrun|]. split; [|exact Hcg].
  rewrite Ha. reflexivity.
Defined.

(** ** The level handed to a game *)

(** X12: whatever get_difficulty returns is a level: for every profile,
    override, birth date and record, a returned value lies between 1
    and 10. *)
Theorem get_difficulty_is_a_level game_type today w v :
  fst (get_difficulty game_type today w) = Ok v -> 1 <= v <= 10.
Proof.
  unfold get_difficulty. rewrite bind_run. cbn [get_data].
  destruct (default ∅ (difficulty_settings (data w)) !! game_type) as [o|].
  - cbn. intros [= <-]. unfold clamp_1_10. lia.
  - rewrite bind_run. destruct (games (data w)) as [g|]; [|discriminate].
    rewrite subscript_run, bind_run, lift_run.
    destruct (nudge _ _) as [b|e]; [|discriminate].
    cbn. intros [= <-]. unfold clamp_1_10. lia.
Qed.

(** Age base 2 for 42 months, two levels up for four wins in four. *)
Lemma get_difficulty_is_a_level_witness :
  fst (get_difficulty "counting" sample_today (sample_world four_wins None)) = Ok 4 /\
  1 <= 4 <= 10.
Proof.
  assert (H : fst (get_difficulty "counting" sample_today (sample_world four_wins None))
              = Ok 4) by (vm_compute; reflexivity).
  split; [exact H|].
  exact (get_difficulty_is_a_level "counting" sample_today (sample_world four_wins None) 4 H).
Defined.

Lemma truediv_all_won (p : Z) :
  0 < p -> PyFloat.truediv p p = Ok (S754_finite false 4503599627370496 (-52)).
Proof.
  intros Hp. unfold PyFloat.truediv.
  replace (p =? 0) with false by (symmetry; apply Z.eqb_neq; lia).
  destruct p as [|p|p]; try lia. cbn [PyFloat.raw_of_Z]. by rewrite fdiv_self.
Qed.

Lemma truediv_none_won (p : Z) :
  0 < p -> PyFloat.truediv 0 p = Ok (S754_zero false).
Proof.
  intros Hp. unfold PyFloat.truediv.
  replace (p =? 0) with false by (symmetry; apply Z.eqb_neq; lia).
  by destruct p as [|p|p]; try lia.
Qed.

(** X13: the win-rate nudge at its ends.  With no override and more
    than three games played, a player who has won every game gets the
    age base plus two levels (at most 10), and one who has won none
    gets the age base minus two levels (at least 1), whatever the
    number of games. *)
Theorem get_difficulty_nudge_extremes game_type today w g r played :
  default ∅ (difficulty_settings (data w)) !! game_type = None ->
  games (data w) = Some g ->
  g !! game_type = Some r ->
  games_played r = Some played ->
  3 < played ->
  let base := age_base_difficulty (birth_date (data w)) today in
  (games_won r = Some played ->
   get_difficulty game_type today w = (Ok (Z.min (base + 2) 10), w)) /\
  (games_won r = Some 0 \/ games_won r = None ->
   get_difficulty game_type today w = (Ok (Z.max (base - 2) 1), w)).
Proof.
  intros Hov Hg Hr Hp Hplayed base.
  pose proof (age_base_difficulty_range (birth_date (data w)) today) as Hbase.
  fold base in Hbase.
  rewrite (get_difficulty_run _ _ _ _ Hov Hg). fold base. rewrite Hr.
  unfold nudge. cbn [mbind option_bind]. rewrite Hp. cbn [default from_option id].
  replace (3 <? played) with true by (symmetry; apply Z.ltb_lt; lia).
  split.
  - intros ->. cbn [default from_option id].
    rewrite (truediv_all_won played) by lia.
    change ((Ok (Z.min (base + 2) 10) ≫= λ b, mret (clamp_1_10 b), w)
            = (Ok (Z.min (base + 2) 10), w)).
    cbn. unfold clamp_1_10. do 2 f_equal. lia.
  - intros Hw.
    assert (Hwon : default 0 (games_won r) = 0) by (destruct Hw as [-> | ->]; done).
    rewrite Hwon, (truediv_none_won played) by lia.
    change ((Ok (Z.max (base - 2) 1) ≫= λ b, mret (clamp_1_10 b), w)
            = (Ok (Z.max (base - 2) 1), w)).
    cbn. unfold clamp_1_10. do 2 f_equal. lia.
Qed.

(** Four wins in four games. *)
Lemma get_difficulty_nudge_extremes_witness :
  default ∅ (difficulty_settings (data (sample_world four_wins None))) !! "counting"
  = None /\
  games (data (sample_world four_wins None)) = Some (sample_games four_wins) /\
  sample_games four_wins !! "counting" = Some (full_record (Some 1) 4 4 5 four_wins) /\
  games_played (full_record (Some 1) 4 4 5 four_wins) = Some 4 /\
  3 < 4 /\
  games_won (full_record (Some 1) 4 4 5 four_wins) = Some 4 /\
  get_difficulty "counting" sample_today (sample_world four_wins None)
  = (Ok (Z.min (age_base_difficulty (Some "2020-05-17") sample_today + 2) 10),
     sample_world four_wins None).
Proof.
  split; [reflexivity|]. split; [reflexivity|]. split; [reflexivity|].
  split; [reflexivity|]. split; [lia|]. split; [reflexivity|].
  exact (proj1 (get_difficulty_nudge_extremes "counting" sample_today
                  (sample_world four_wins None) (sample_games four_wins)
                  (full_record (Some 1) 4 4 5 four_wins) 4
                  eq_refl eq_refl eq_refl eq_refl ltac:(lia)) eq_refl).
Defined.

(** ** Statistics after a game *)

Lemma read_only_bind {A B} (m : M A) (f : A -> M B) :
  read_only m -> (forall a, read_only (f a)) -> read_only (m ≫= f).
Proof.
  intros Hm Hf w. rewrite bind_run. specialize (Hm w).
  destruct (m w) as [[a|e] w1]; cbn [snd] in Hm; subst w1; [apply Hf | reflexivity].
Qed.

Lemma read_only_mret {A} (a : A) : read_only (mret a : M A).
Proof. by intros w. Qed.

Lemma read_only_get_data : read_only get_data.
Proof. by intros w. Qed.

Lemma read_only_lift {A} (o : outcome A) : read_only (lift o).
Proof. by intros w. Qed.

Lemma read_only_subscript {A} key (o : option A) : read_only (subscript key o).
Proof. intros w. by destruct o. Qed.

Lemma read_only_game_data_of gt : read_only (game_data_of gt).
Proof.
  unfold game_data_of.
  apply read_only_bind; [apply read_only_get_data|]. intros d.
  apply read_only_bind; [apply read_only_subscript|]. intros g.
  apply read_only_subscript.
Qed.

Create HintDb read_only.

#[local] Hint Resolve read_only_mret read_only_get_data read_only_lift
  read_only_subscript read_only_game_data_of : read_only.

(** X14: get_game_stats only reads: whether it returns or raises (a
    missing game type, a missing key, a quotient too large for a
    double), the world after the call is the world before it. *)
Theorem get_game_stats_read_only gt w : snd (get_game_stats gt w) = w.
Proof.
  revert w. change (read_only (get_game_stats gt)).
  unfold get_game_stats, _get_recent_performance.
  repeat (apply read_only_bind; [auto with read_only | intros ?]);
    auto with read_only.
  destruct (0 <? _); [|auto with read_only].
  apply read_only_bind; auto with read_only.
Qed.

(** X15: the statistics show the game just recorded.  After
    update_game_result, get_game_stats reports one more game played,
    one more game won exactly for a win, the adjusted difficulty, and
    a recent_performance of at most ten outcomes, oldest first, whose
    last one is the outcome just recorded. *)
Theorem stats_show_the_last_game gt won_ score_ time_taken_ details_ now w lv gp gw cd h :
  game_of w gt = Some (full_record (Some lv) gp gw cd h) ->
  0 <= gw <= gp ->
  let e := history_entry_of won_ score_ time_taken_ details_ now cd in
  exists w' st,
    update_game_result gt won_ score_ time_taken_ details_ now w = (Ok tt, w') /\
    get_game_stats gt w' = (Ok st, w') /\
    stats_games_played st = gp + 1 /\
    stats_games_won st = (if won_ then gw + 1 else gw) /\
    stats_current_difficulty st = adjust_rule cd (h ++ [e]) /\
    recent_performance st = map won (slice_last 10 (h ++ [e])) /\
    last (recent_performance st) = Some won_ /\
    length (recent_performance st) = ((length h + 1) `min` 10)%nat.
Proof.
  intros Hr Hc e.
  pose proof (game_of_games _ _ _ Hr) as Hg.
  rewrite (update_game_result_run _ _ _ _ _ _ _ _ _ _ _ _ Hr). fold e.
  set (w' := saved now _).
  assert (Hr' : game_of w' gt
                = Some (full_record (Some lv) (gp + 1) (if won_ then gw + 1 else gw)
                          (adjust_rule cd (slice_last 50 (h ++ [e])))
                          (slice_last 50 (h ++ [e])))).
  { subst w'. by rewrite game_of_saved, game_of_store_eq. }
  exists w'. rewrite (get_game_stats_run _ _ _ _ _ _ _ Hr').
  replace (0 <? gp + 1) with true by (symmetry; apply Z.ltb_lt; lia).
  destruct (truediv_unit_interval (if won_ then gw + 1 else gw) (gp + 1)
              ltac:(destruct won_; lia) ltac:(lia)) as (f & Hf & _).
  rewrite Hf. eexists. split; [reflexivity|]. split; [reflexivity|].
  cbn [stats_games_played stats_games_won stats_current_difficulty recent_performance].
  split; [reflexivity|]. split; [reflexivity|].
  split; [apply adjust_rule_slice_last|].
  rewrite slice_last_slice_last by lia.
  split; [reflexivity|]. split.
  - rewrite (slice_last_snoc 9), map_app. cbn. by rewrite last_snoc.
  - rewrite length_map, slice_last_length, length_app. cbn. lia.
Qed.

(** A fifth win. *)
Lemma stats_show_the_last_game_witness :
  game_of (sample_world four_wins None) "counting"
  = Some (full_record (Some 1) 4 4 5 four_wins) /\
  0 <= 4 <= 4 /\
  exists w' st,
    update_game_result "counting" true 80 30000000 None 7 (sample_world four_wins None)
    = (Ok tt, w') /\
    get_game_stats "counting" w' = (Ok st, w') /\
    stats_games_played st = 5 /\
    stats_games_won st = 5 /\
    last (recent_performance st) = Some true.
Proof.
  split; [reflexivity|]. split; [lia|].
  destruct (stats_show_the_last_game "counting" true 80 30000000 None 7
              (sample_world four_wins None) 1 4 4 5 four_wins eq_refl ltac:(lia))
    as (w' & st & Hrun & Hstats & Hp & Hw & _ & _ & Hlast & _).
  exists w', st. split; [exact Hrun|]. split; [exact Hstats|].
  split; [exact Hp|]. split; [exact Hw | exact Hlast].
Defined.

(** ** More on migration and start-up *)

(** X16: how music_theory is split.  Each of the three new ids that the
    file lacks gets music_theory's level and difficulty, a third of its
    counters rounded down and an empty history.  The thirds never add
    up to more than the old counter, counters with
    0 <= games_won <= games_played stay so, and music_theory itself,
    the coins and the stars are not touched. *)
Theorem migration_splits_music_theory now w g m id :
  games (data w) = Some g ->
  g !! "music_theory" = Some m ->
  id ∈ new_game_types ->
  g !! id = None ->
  let played := default 0 (games_played m) in
  let won_ := default 0 (games_won m) in
  exists w',
    _migrate_data now w = (Ok tt, w') /\
    game_of w' id
    = Some (full_record (Some (default 1 (level m))) (played `div` 3) (won_ `div` 3)
              (default 1 (current_difficulty m)) []) /\
    (0 <= played -> 0 <= 3 * (played `div` 3) <= played) /\
    (0 <= won_ <= played -> 0 <= won_ `div` 3 <= played `div` 3) /\
    game_of w' "music_theory" = Some m /\
    total_coins (data w') = total_coins (data w) /\
    total_stars (data w') = total_stars (data w) /\
    save_file w' = FileJson (data w') /\
    save_count w' = S (save_count w).
Proof.
  intros Hg Hm Hid Hnone played won_.
  rewrite (_migrate_data_run _ _ _ Hg).
  assert (Hdone : already_migrated g = false).
  { unfold already_migrated. apply not_true_iff_false.
    rewrite !andb_true_iff, !is_in_true. intros [[H1 H2] H3].
    unfold new_game_types in Hid. rewrite !elem_of_cons, elem_of_nil in Hid.
    destruct Hid as [->|[->|[->|[]]]]; rewrite Hnone in *;
      by (destruct H1 || destruct H2 || destruct H3). }
  rewrite Hdone. eexists. split; [reflexivity|].
  assert (Hlook : forall k,
    game_of (saved now (with_data (set_games (migrated_games g) (data w)) w)) k
    = migrated_games g !! k) by reflexivity.
  rewrite !Hlook, !migrated_games_lookup, Hnone, Hm.
  rewrite bool_decide_eq_true_2 by done.
  unfold backfill_record. rewrite Hm.
  split; [reflexivity|].
  split; [intros; pose proof (Z.mul_div_le played 3); split; [apply Z.mul_nonneg_nonneg;
          [lia | apply Z.div_pos; lia] | lia]|].
  split; [intros; split; [apply Z.div_pos; lia | apply Z.div_le_mono; lia]|].
  repeat split; reflexivity.
Qed.

(** Seven music games, five of them won, become two and one for the
    rhythm game. *)
Lemma migration_splits_music_theory_witness :
  games (data music_theory_world) = Some music_theory_games /\
  music_theory_games !! "music_theory" = Some (full_record (Some 2) 7 5 3 four_wins) /\
  "rhythm" ∈ new_game_types /\
  music_theory_games !! "rhythm" = None /\
  exists w',
    _migrate_data 5 music_theory_world = (Ok tt, w') /\
    game_of w' "rhythm" = Some (full_record (Some 2) 2 1 3 []).
Proof.
  assert (Hin : "rhythm" ∈ new_game_types)
    by (apply list_elem_of_In; right; left; reflexivity).
  split; [reflexivity|]. split; [reflexivity|]. split; [exact Hin|].
  split; [reflexivity|].
  destruct (migration_splits_music_theory 5 music_theory_world music_theory_games
              (full_record (Some 2) 7 5 3 four_wins) "rhythm"
              eq_refl eq_refl Hin eq_refl) as (w' & Hrun & Hr & _).
  exists w'. split; [exact Hrun | exact Hr].
Defined.

(** X17: start-up writes the file only to record a migration.  From an
    absent or unreadable file, and from a file that already has
    staff_reading, rhythm and interval, GameProgress leaves the save
    file exactly as it found it (an absent file stays absent: the
    default profile is in memory only); from any other file it writes
    once, stamped with the time of the start. *)
Theorem startup_writes_only_to_migrate f now :
  let w := snd (GameProgress_init f now) in
  let migrated :=
    match f with
    | FileJson p => already_migrated (default ∅ (games p))
    | FileAbsent | FileUnreadable => true
    end in
  (migrated = true ->
   save_file w = f /\ save_count w = 0%nat /\ data w = _load_progress f now) /\
  (migrated = false ->
   save_file w = FileJson (data w) /\ save_count w = 1%nat /\
   last_played (data w) = Some now).
Proof.
  intros w migrated. subst w migrated. unfold GameProgress_init.
  destruct f as [| |p]; cbn [_load_progress].
  - split; [|discriminate]. intros _. by vm_compute.
  - split; [|discriminate]. intros _. by vm_compute.
  - destruct (games p) as [g|] eqn:Hg.
    + erewrite _migrate_data_run by exact Hg.
      change (default ∅ (Some g)) with g.
      destruct (already_migrated g); split; intros; try discriminate; by cbn.
    + erewrite _migrate_data_run_detached by exact Hg.
      change (default ∅ None) with (∅ : gmap string GameRecord).
      split; [by vm_compute|]. intros _. by cbn.
Qed.

(** A first start, without a save file. *)
Lemma startup_writes_only_to_migrate_witness :
  save_file (snd (GameProgress_init FileAbsent 5)) = FileAbsent /\
  save_count (snd (GameProgress_init FileAbsent 5)) = 0%nat.
Proof.
  pose proof (startup_writes_only_to_migrate FileAbsent 5) as H. cbv zeta in H.
  destruct (proj1 H eq_refl) as (Hf & Hc & _).
  split; [exact Hf | exact Hc].
Defined.

(** ** The birth date written by the settings screen *)

Lemma split_dash_no_dash s : has_dash s = false -> split_dash s = [s].
Proof.
  induction s as [|c s IH]; [done|]. cbn [has_dash split_dash]. intros H.
  apply orb_false_iff in H as [Hc Hs]. rewrite Hc, (IH Hs). reflexivity.
Qed.

Lemma split_dash_app s rest :
  has_dash s = false -> split_dash (s +:+ "-" +:+ rest) = s :: split_dash rest.
Proof.
  induction s as [|c s IH]; [done|]. cbn [has_dash]. intros H.
  apply orb_false_iff in H as [Hc Hs].
  change (String c s +:+ "-" +:+ rest) with (String c (s +:+ "-" +:+ rest)).
  cbn [split_dash]. rewrite Hc, (IH Hs). reflexivity.
Qed.

Lemma prints_and_reads_spec print n :
  prints_and_reads print n = true ->
  has_dash (print n) = false /\ int_of_string (print n) = Some n.
Proof.
  unfold prints_and_reads. intros H. apply andb_true_iff in H as [Hd Hr].
  apply negb_true_iff in Hd. split; [exact Hd|].
  destruct (int_of_string (print n)) as [n'|]; [|discriminate].
  apply Z.eqb_eq in Hr. by subst.
Qed.

Lemma forallb_seqZ (P : Z -> bool) (m len : Z) :
  forallb P (seqZ m len) = true -> forall n, m <= n < m + len -> P n = true.
Proof.
  intros H n Hn. rewrite forallb_forall in H. apply H.
  apply list_elem_of_In, elem_of_seqZ. lia.
Qed.

Lemma years_print_and_read n :
  1 <= n <= 9999 -> prints_and_reads str_int n = true.
Proof.
  intros Hn. apply (forallb_seqZ _ 1 9999); [vm_compute; reflexivity | lia].
Qed.

Lemma days_print_and_read n :
  1 <= n <= 31 -> prints_and_reads format_02d n = true.
Proof.
  intros Hn. apply (forallb_seqZ _ 1 31); [vm_compute; reflexivity | lia].
Qed.

Lemma make_date_Some y m d dt :
  make_date y m d = Some dt ->
  1 <= y <= 9999 /\ 1 <= m <= 12 /\ 1 <= d <= 31 /\
  dt = {| year := y; month := m; day := d |}.
Proof.
  unfold make_date. destruct (_ && _) eqn:H; [|discriminate]. intros [= <-].
  rewrite !andb_true_iff, !Z.leb_le in H.
  assert (days_in_month y m <= 31).
  { unfold days_in_month. repeat match goal with |- context [if ?b then _ else _] =>
      destruct b end; lia. }
  repeat split; lia.
Qed.

Lemma format_then_parse y m d dt :
  make_date y m d = Some dt ->
  parse_birth_date (format_birth_date y m d) = Some dt /\
  format_birth_date y m d <> "".
Proof.
  intros Hdt. pose proof (make_date_Some _ _ _ _ Hdt) as (Hy & Hm & Hd & ->).
  destruct (prints_and_reads_spec _ _ (years_print_and_read y Hy)) as [Hy1 Hy2].
  destruct (prints_and_reads_spec _ _ (days_print_and_read m ltac:(lia))) as [Hm1 Hm2].
  destruct (prints_and_reads_spec _ _ (days_print_and_read d Hd)) as [Hd1 Hd2].
  assert (Hparse : parse_birth_date (format_birth_date y m d)
                   = Some {| year := y; month := m; day := d |}).
  { unfold parse_birth_date, format_birth_date.
    rewrite (split_dash_app _ _ Hy1), (split_dash_app _ _ Hm1), (split_dash_no_dash _ Hd1).
    rewrite Hy2, Hm2, Hd2. cbn [mbind option_bind]. exact Hdt. }
  split; [exact Hparse|]. intros Hf. rewrite Hf in Hparse. discriminate.
Qed.

Lemma age_base_difficulty_parsed text birth today :
  text <> "" ->
  parse_birth_date text = Some birth ->
  age_base_difficulty (Some text) today = age_table (months_between today birth).
Proof.
  intros Hne Hp. unfold age_base_difficulty. destruct text as [|c s]; [done|].
  by rewrite Hp.
Qed.

(** X18: what the settings screen writes, get_difficulty reads.  For
    every date that datetime.date accepts, the text
    f"{year}-{month:02d}-{day:02d}" parses back, by the split and the
    int conversions of get_difficulty, to that same date. *)
Theorem birth_date_round_trip y m d dt :
  make_date y m d = Some dt ->
  parse_birth_date (format_birth_date y m d) = Some dt /\
  forall today,
    age_base_difficulty (Some (format_birth_date y m d)) today
    = age_table ((year today - y) * 12 + month today - m).
Proof.
  intros Hdt. destruct (format_then_parse _ _ _ _ Hdt) as [Hparse Hne].
  split; [exact Hparse|]. intros today.
  rewrite (age_base_difficulty_parsed _ _ today Hne Hparse).
  by pose proof (make_date_Some _ _ _ _ Hdt) as (_ & _ & _ & ->).
Qed.

(** 17 May 2020. *)
Lemma birth_date_round_trip_witness :
  make_date 2020 5 17 = Some {| year := 2020; month := 5; day := 17 |} /\
  parse_birth_date (format_birth_date 2020 5 17)
  = Some {| year := 2020; month := 5; day := 17 |}.
Proof.
  split; [reflexivity|].
  exact (proj1 (birth_date_round_trip 2020 5 17 _ eq_refl)).
Defined.

(** ** The sliders *)

Lemma slider_value_run rel_x :
  0 <= rel_x < slider_width ->
  slider_value rel_x = Ok (rel_x `div` 30 + 1) /\ 1 <= rel_x `div` 30 + 1 <= 10.
Proof.
  intros Hx. unfold slider_width in Hx.
  assert (Hok : slider_band_ok rel_x = true).
  { apply (forallb_seqZ _ 0 300); [vm_compute; reflexivity | lia]. }
  unfold slider_band_ok in Hok.
  destruct (slider_value rel_x) as [v|e]; [|discriminate].
  apply Z.eqb_eq in Hok. subst v. split; [reflexivity|].
  assert (0 <= rel_x `div` 30 < 10); [|lia].
  split; [apply Z.div_pos; lia | apply Z.div_lt_upper_bound; lia].
Qed.

(** X19: a slider has ten bands of thirty pixels.  For every column of
    the 300-pixel bar, the level computed in doubles,
    max(1, min(10, int(rel_x / 300 * 10) + 1)), is rel_x // 30 + 1,
    a level from 1 to 10. *)
Theorem slider_bands rel_x :
  0 <= rel_x < slider_width ->
  slider_value rel_x = Ok (rel_x `div` 30 + 1) /\ 1 <= rel_x `div` 30 + 1 <= 10.
Proof. apply slider_value_run. Qed.

(** ** The settings screen *)

Lemma get_difficulty_of_setting g today w ds v :
  difficulty_settings (data w) = Some ds ->
  ds !! g = Some v ->
  get_difficulty g today w = (Ok (clamp_1_10 v), w).
Proof.
  intros Hds Hv. unfold get_difficulty. rewrite bind_run. cbn [get_data].
  rewrite Hds. change (default ∅ (Some ds)) with ds. by rewrite Hv.
Qed.

(** A click in the middle of the bar. *)
Lemma slider_bands_witness :
  0 <= 157 < slider_width /\ slider_value 157 = Ok 6.
Proof.
  assert (H : 0 <= 157 < slider_width) by (unfold slider_width; lia).
  split; [exact H|]. exact (proj1 (slider_bands 157 H)).
Defined.


Lemma slider_hit_run g rel_x s w :
  0 <= rel_x < slider_width ->
  let v := rel_x `div` 30 + 1 in
  slider_hit g rel_x s w
  = match screen_settings s with
    | Shared =>
        (Ok (with_slider g v Shared s),
         with_data (set_difficulty_settings
                      (<[g := v]> (default ∅ (difficulty_settings (data w)))) (data w)) w)
    | Own m => (Ok (with_slider g v (Own (<[g := v]> m)) s), w)
    end.
Proof.
  intros Hx v. unfold slider_hit. rewrite bind_run, lift_run.
  rewrite (proj1 (slider_value_run _ Hx)). by destruct (screen_settings s).
Qed.

Lemma open_settings_run w name :
  player_name (data w) = Some name ->
  exists s,
    open_settings w = (Ok s, w) /\
    temp_name s = name /\
    screen_settings s = match difficulty_settings (data w) with
                        | Some _ => Shared
                        | None => Own default_difficulty_settings
                        end /\
    sliders_agree s (data w).
Proof.
  intros Hn. unfold open_settings, get_player_name.
  rewrite !bind_run. cbn [get_data]. rewrite Hn, subscript_run, bind_run. cbn [get_data].
  set (ref := match difficulty_settings (data w) with Some _ => Shared | None => _ end).
  destruct (match birth_date (data w) with Some (String c s) => _ | _ => _ end)
    as [[y m] dd].
  eexists. split; [reflexivity|]. cbn. split; [done|]. split; [done|].
  intros g Hg. unfold slider_games in Hg.
  repeat (apply elem_of_cons in Hg as [->|Hg]; [reflexivity|]).
  by apply elem_of_nil in Hg.
Qed.

Lemma sliders_agree_hit g rel_x s w s' w' :
  0 <= rel_x < slider_width ->
  sliders_agree s (data w) ->
  slider_hit g rel_x s w = (Ok s', w') ->
  sliders_agree s' (data w').
Proof.
  intros Hx Hs. rewrite (slider_hit_run _ _ _ _ Hx). unfold sliders_agree in *.
  destruct (screen_settings s) as [|m] eqn:Hr; intros [= <- <-] g' Hg';
    specialize (Hs g' Hg'); cbn in *;
    (destruct (decide (g' = g)) as [->|Hne];
     [by rewrite !lookup_insert_eq | by rewrite !lookup_insert_ne]).
Qed.

Lemma slider_hits_agree hits : forall s w s' w',
  Forall on_a_slider hits ->
  sliders_agree s (data w) ->
  slider_hits hits s w = (Ok s', w') ->
  sliders_agree s' (data w').
Proof.
  induction hits as [|[g x] hits IH]; intros s w s' w' Hhits Hs.
  - by intros [= <- <-].
  - apply Forall_cons in Hhits as [[_ Hx] Hhits]. cbn [slider_hits].
    rewrite bind_run. destruct (slider_hit g x s w) as [[s1|e] w1] eqn:H1; [|discriminate].
    apply (IH _ _ _ _ Hhits). by apply (sliders_agree_hit _ _ _ _ _ _ Hx Hs H1).
Qed.

(** The clicks always return. *)
Lemma slider_hits_total hits : forall s w,
  Forall on_a_slider hits -> exists s' w', slider_hits hits s w = (Ok s', w').
Proof.
  induction hits as [|[g x] hits IH]; intros s w Hhits.
  - by eexists _, _.
  - apply Forall_cons in Hhits as [[_ Hx] Hhits]. cbn [slider_hits].
    rewrite bind_run, (slider_hit_run _ _ _ _ Hx). cbn zeta.
    destruct (screen_settings s); apply (IH _ _ Hhits).
Qed.

Lemma own_levels_hits hits : forall s w s' w',
  Forall on_a_slider hits ->
  own_levels s ->
  slider_hits hits s w = (Ok s', w') ->
  w' = w /\ own_levels s'.
Proof.
  induction hits as [|[g x] hits IH]; intros s w s' w' Hhits Hs.
  - by intros [= <- <-].
  - apply Forall_cons in Hhits as [[_ Hx] Hhits]. cbn [slider_hits].
    rewrite bind_run, (slider_hit_run _ _ _ _ Hx). cbn zeta.
    destruct Hs as (m & Hm & Hall). rewrite Hm. apply (IH _ _ _ _ Hhits).
    exists (<[g := x `div` 30 + 1]> m). split; [reflexivity|].
    intros g' Hg'. destruct (decide (g' = g)) as [->|Hne].
    + rewrite lookup_insert_eq. eexists. split; [reflexivity|].
      apply (slider_value_run _ Hx).
    + rewrite lookup_insert_ne by done. by apply Hall.
Qed.

Lemma own_levels_default s :
  screen_settings s = Own default_difficulty_settings -> own_levels s.
Proof.
  intros Hs. exists default_difficulty_settings. split; [exact Hs|].
  intros g Hg. exists 5. split; [|lia]. unfold slider_games in Hg.
  repeat (apply elem_of_cons in Hg as [->|Hg]; [reflexivity|]).
  by apply elem_of_nil in Hg.
Qed.

Lemma _validate_and_save_run s today now w :
  _validate_and_save s today now w
  = if String.eqb (temp_name s) "" then (Ok (false, s), w)
    else
      let w1 := with_data (with_player_name (temp_name s) (data w)) w in
      let ds := settings_of (screen_settings s) (data w) in
      if birth_fields_filled s then
        match checked_birth_date (temp_birth_year s) (temp_birth_month s)
                (temp_birth_day s) today with
        | Ok (Some text) =>
            (Ok (true, with_shared s),
             saved now (with_data (set_difficulty_settings ds
                                     (set_birth_date (Some text) (data w1))) w1))
        | Ok None => (Ok (false, s), w1)
        | Raise e => (Raise e, w1)
        end
      else
        (Ok (true, with_shared s),
         saved now (with_data (set_difficulty_settings ds (data w1)) w1)).
Proof.
  unfold _validate_and_save, store_birth_date, birth_fields_filled.
  destruct (String.eqb (temp_name s) ""); [reflexivity|].
  rewrite !bind_run. cbn [get_data put_data].
  destruct (_ && _).
  - unfold lift.
    destruct (checked_birth_date _ _ _ _) as [[text|]|e]; [|reflexivity..].
    destruct (screen_settings s); reflexivity.
  - destruct (screen_settings s); reflexivity.
Qed.



Lemma checked_birth_date_accepts y m d today text :
  checked_birth_date y m d today = Ok (Some text) ->
  exists birth,
    text <> "" /\
    parse_birth_date text = Some birth /\
    int_of_string y = Some (year birth) /\
    int_of_string m = Some (month birth) /\
    int_of_string d = Some (day birth) /\
    date_gtb birth today = false /\
    36 <= months_between today birth <= 120.
Proof.
  unfold checked_birth_date.
  destruct (int_of_string y) as [y'|]; [|discriminate].
  destruct (int_of_string m) as [m'|]; [|discriminate].
  destruct (int_of_string d) as [d'|]; [|discriminate].
  destruct (date_of y' m' d') as [birth|e] eqn:Hdate; [|by destruct e].
  unfold date_of in Hdate. destruct (_ && _) in Hdate; [|discriminate].
  destruct (make_date y' m' d') as [dt|] eqn:Hmk; [|discriminate].
  injection Hdate as ->.
  destruct (format_then_parse _ _ _ _ Hmk) as [Hparse Hne].
  pose proof (make_date_Some _ _ _ _ Hmk) as (_ & _ & _ & Hb).
  destruct (date_gtb birth today) eqn:Hgt; [discriminate|].
  destruct (_ <? 36) eqn:H36; [discriminate|].
  destruct (120 <? _) eqn:H120; [discriminate|].
  intros [= <-]. exists birth. rewrite Hb in *. cbn [year month day] in *.
  apply Z.ltb_ge in H36, H120. unfold months_between. cbn [year month day].
  repeat split; try done; lia.
Qed.

(** X20: the sliders show the settings.  From the opening of the screen
    and through any clicks on the bars, each of the seven sliders
    shows the entry of self.difficulty_settings for its game, and 5
    for a game without an entry; the clicks never raise. *)
Theorem sliders_show_the_settings w name hits :
  player_name (data w) = Some name ->
  Forall on_a_slider hits ->
  exists s s' w',
    open_settings w = (Ok s, w) /\
    slider_hits hits s w = (Ok s', w') /\
    sliders_agree s' (data w').
Proof.
  intros Hn Hhits. destruct (open_settings_run _ _ Hn) as (s & Hopen & _ & _ & Hs).
  destruct (slider_hits_total hits s w Hhits) as (s' & w' & Hrun).
  exists s, s', w'. split; [exact Hopen|]. split; [exact Hrun|].
  by apply (slider_hits_agree hits s w).
Qed.

(** Three clicks on the screen of the sample profile. *)
Lemma sliders_show_the_settings_witness :
  player_name (data (sample_world four_wins None)) = Some "Mia" /\
  Forall on_a_slider sample_hits /\
  exists s s' w',
    open_settings (sample_world four_wins None) = (Ok s, sample_world four_wins None) /\
    slider_hits sample_hits s (sample_world four_wins None) = (Ok s', w') /\
    sliders_agree s' (data w').
Proof.
  assert (Hhits : Forall on_a_slider sample_hits).
  { repeat (apply Forall_cons; split;
            [split; [apply list_elem_of_In; cbn; tauto | unfold slider_width; cbn; lia]|]).
    apply Forall_nil_2. }
  split; [reflexivity|]. split; [exact Hhits|].
  exact (sliders_show_the_settings (sample_world four_wins None) "Mia" sample_hits
           eq_refl Hhits).
Defined.

(** X21: a click on a slider is in force before Save.  When the profile
    has a difficulty_settings dictionary, the screen holds that very
    dictionary: the click writes the new level into the profile, the
    game gets that level from get_difficulty at once, and only the
    save file is still the old one, so Cancel does not take the click
    back. *)
Theorem slider_click_is_in_force_unsaved w name ds g rel_x :
  player_name (data w) = Some name ->
  difficulty_settings (data w) = Some ds ->
  g ∈ slider_games ->
  0 <= rel_x < slider_width ->
  exists s s' w',
    open_settings w = (Ok s, w) /\
    slider_hit g rel_x s w = (Ok s', w') /\
    difficulty_settings (data w') = Some (<[g := rel_x `div` 30 + 1]> ds) /\
    (forall today, get_difficulty g today w' = (Ok (rel_x `div` 30 + 1), w')) /\
    save_file w' = save_file w /\ save_count w' = save_count w.
Proof.
  intros Hn Hds Hg Hx.
  destruct (open_settings_run _ _ Hn) as (s & Hopen & _ & Hr & _).
  rewrite Hds in Hr. exists s. eexists _, _. split; [exact Hopen|].
  rewrite (slider_hit_run _ _ _ _ Hx), Hr. cbn zeta. split; [reflexivity|].
  cbn. rewrite Hds. cbn. split; [reflexivity|]. split; [|done].
  intros today.
  erewrite get_difficulty_of_setting; [| reflexivity | apply lookup_insert_eq].
  unfold clamp_1_10. pose proof (proj2 (slider_value_run _ Hx)).
  f_equal. f_equal. lia.
Qed.

(** An override of 7 for counting, and a click in the sixth band. *)
Lemma slider_click_is_in_force_unsaved_witness :
  player_name (data (sample_world four_wins (Some {["counting" := 7]}))) = Some "Mia" /\
  difficulty_settings (data (sample_world four_wins (Some {["counting" := 7]})))
  = Some {["counting" := 7]} /\
  "counting" ∈ slider_games /\
  0 <= 157 < slider_width /\
  exists s s' w',
    open_settings (sample_world four_wins (Some {["counting" := 7]}))
    = (Ok s, sample_world four_wins (Some {["counting" := 7]})) /\
    slider_hit "counting" 157 s (sample_world four_wins (Some {["counting" := 7]}))
    = (Ok s', w') /\
    get_difficulty "counting" sample_today w' = (Ok 6, w') /\
    save_count w' = 0%nat.
Proof.
  assert (Hin : "counting" ∈ slider_games) by (apply list_elem_of_In; cbn; tauto).
  assert (Hx : 0 <= 157 < slider_width) by (unfold slider_width; lia).
  split; [reflexivity|]. split; [reflexivity|]. split; [exact Hin|]. split; [exact Hx|].
  destruct (slider_click_is_in_force_unsaved
              (sample_world four_wins (Some {["counting" := 7]})) "Mia"
              {["counting" := 7]} "counting" 157 eq_refl eq_refl Hin Hx)
    as (s & s' & w' & Hopen & Hhit & _ & Hget & _ & Hcount).
  exists s, s', w'. split; [exact Hopen|]. split; [exact Hhit|].
  split; [exact (Hget sample_today) | exact Hcount].
Defined.

(** X22: on a profile without difficulty_settings the clicks stay in the
    screen: they change nothing in the profile and nothing in the file,
    and get_difficulty answers as before.  When Save is then accepted,
    each of the seven games gets, from get_difficulty, exactly the
    level its slider shows, a level from 1 to 10. *)
Theorem fresh_profile_sliders w name hits :
  player_name (data w) = Some name ->
  difficulty_settings (data w) = None ->
  Forall on_a_slider hits ->
  exists s s1,
    open_settings w = (Ok s, w) /\
    slider_hits hits s w = (Ok s1, w) /\
    forall today now s2 w2,
      _validate_and_save s1 today now w = (Ok (true, s2), w2) ->
      forall g, g ∈ slider_games ->
        exists v, slider_values s2 !! g = Some v /\ 1 <= v <= 10 /\
                  forall today', get_difficulty g today' w2 = (Ok v, w2).
Proof.
  intros Hn Hds Hhits.
  destruct (open_settings_run _ _ Hn) as (s & Hopen & _ & Hr & Hs).
  rewrite Hds in Hr.
  destruct (slider_hits_total hits s w Hhits) as (s1 & w1 & Hrun).
  destruct (own_levels_hits hits _ _ _ _ Hhits (own_levels_default _ Hr) Hrun)
    as (-> & m & Hm & Hall).
  pose proof (slider_hits_agree hits _ _ _ _ Hhits Hs Hrun) as Hagree.
  exists s, s1. split; [exact Hopen|]. split; [exact Hrun|].
  intros today now s2 w2 Hsave g Hg.
  destruct (Hall g Hg) as (v & Hv & Hrange).
  specialize (Hagree g Hg). rewrite Hm in Hagree. cbn [settings_of] in Hagree.
  rewrite Hv in Hagree. cbn [default] in Hagree.
  rewrite _validate_and_save_run in Hsave.
  destruct (String.eqb (temp_name s1) ""); [discriminate|]. cbn zeta in Hsave.
  rewrite Hm in Hsave. cbn [settings_of] in Hsave.
  assert (Hw2 : difficulty_settings (data w2) = Some m /\ s2 = with_shared s1).
  { destruct (birth_fields_filled s1).
    - destruct (checked_birth_date _ _ _ _) as [[text|]|e]; [|discriminate..].
      by injection Hsave as <- <-.
    - by injection Hsave as <- <-. }
  destruct Hw2 as [Hw2 ->]. exists v. split; [exact Hagree|]. split; [exact Hrange|].
  intros today'. rewrite (get_difficulty_of_setting _ _ _ _ _ Hw2 Hv).
  unfold clamp_1_10. f_equal. f_equal. lia.
Qed.

(** Three clicks on the screen of the three-game profile. *)
Lemma fresh_profile_sliders_witness :
  player_name (data first_version_world) = Some "Mia" /\
  difficulty_settings (data first_version_world) = None /\
  Forall on_a_slider sample_hits /\
  exists s s1,
    open_settings first_version_world = (Ok s, first_version_world) /\
    slider_hits sample_hits s first_version_world = (Ok s1, first_version_world).
Proof.
  assert (Hhits : Forall on_a_slider sample_hits).
  { repeat (apply Forall_cons; split;
            [split; [apply list_elem_of_In; cbn; tauto | unfold slider_width; cbn; lia]|]).
    apply Forall_nil_2. }
  split; [reflexivity|]. split; [reflexivity|]. split; [exact Hhits|].
  destruct (fresh_profile_sliders first_version_world "Mia" sample_hits
              eq_refl eq_refl Hhits) as (s & s1 & Hopen & Hrun & _).
  exists s, s1. split; [exact Hopen | exact Hrun].
Defined.

(** X23: what an accepted Save stores.  For field texts within the
    digit limit of int: when _validate_and_save returns True the name
    is the typed one (not empty); difficulty_settings is the dictionary
    of the screen, which the screen and the profile share from then on;
    games, coins and stars are untouched; the file holds the profile in
    memory.  With the three birth fields filled in, the
    stored birth date is a text that get_difficulty parses back to the
    typed date, the date is not after today and the age is between 36
    and 120 months; with a field left empty the birth date is as it
    was. *)
Theorem accepted_save s today now w s' w' :
  fields_within_limit s ->
  _validate_and_save s today now w = (Ok (true, s'), w') ->
  temp_name s <> "" /\
  player_name (data w') = Some (temp_name s) /\
  difficulty_settings (data w') = Some (settings_of (screen_settings s) (data w)) /\
  screen_settings s' = Shared /\
  games (data w') = games (data w) /\
  total_coins (data w') = total_coins (data w) /\
  total_stars (data w') = total_stars (data w) /\
  last_played (data w') = Some now /\
  save_file w' = FileJson (data w') /\
  save_count w' = S (save_count w) /\
  (birth_fields_filled s = false -> birth_date (data w') = birth_date (data w)) /\
  (birth_fields_filled s = true ->
   exists text birth,
     birth_date (data w') = Some text /\
     parse_birth_date text = Some birth /\
     int_of_string (temp_birth_year s) = Some (year birth) /\
     int_of_string (temp_birth_month s) = Some (month birth) /\
     int_of_string (temp_birth_day s) = Some (day birth) /\
     date_gtb birth today = false /\
     36 <= months_between today birth <= 120 /\
     age_base_difficulty (birth_date (data w')) today
     = age_table (months_between today birth)).
Proof.
  intros _. rewrite _validate_and_save_run.
  destruct (String.eqb (temp_name s) "") eqn:Hname; [discriminate|].
  apply String.eqb_neq in Hname. cbn zeta.
  destruct (birth_fields_filled s).
  - destruct (checked_birth_date _ _ _ _) as [[text|]|e] eqn:Hc; [|discriminate..].
    intros [= <- <-]. cbn. split_and!; try done. intros _.
    destruct (checked_birth_date_accepts _ _ _ _ _ Hc)
      as (birth & Hne & Hp & Hy & Hm & Hd & Hgt & Hmonths).
    exists text, birth. split_and!; try done; try apply Hmonths.
    by apply age_base_difficulty_parsed.
  - intros [= <- <-]. cbn. split_and!; done.
Qed.

(** A child born on 17 May 2019, on 1 November 2023: 54 months. *)
Lemma accepted_save_witness :
  fields_within_limit (sample_screen "2019") /\
  _validate_and_save (sample_screen "2019") sample_today 7 first_version_world
  = (Ok (true, with_shared (sample_screen "2019")),
     snd (_validate_and_save (sample_screen "2019") sample_today 7 first_version_world)) /\
  birth_date (data (snd (_validate_and_save (sample_screen "2019") sample_today 7
                           first_version_world)))
  = Some "2019-05-17" /\
  player_name (data (snd (_validate_and_save (sample_screen "2019") sample_today 7
                            first_version_world)))
  = Some "Mia".
Proof.
  assert (Hlim : fields_within_limit (sample_screen "2019"))
    by (unfold fields_within_limit; cbn; lia).
  assert (H : _validate_and_save (sample_screen "2019") sample_today 7 first_version_world
              = (Ok (true, with_shared (sample_screen "2019")),
                 snd (_validate_and_save (sample_screen "2019") sample_today 7
                        first_version_world)))
    by (vm_compute; reflexivity).
  split; [exact Hlim|]. split; [exact H|]. split; [vm_compute; reflexivity|].
  exact (proj1 (proj2 (accepted_save _ _ _ _ _ _ Hlim H))).
Defined.

(** X24: what a refused Save leaves behind.  When _validate_and_save
    returns False nothing is written and the birth date, the
    difficulty settings, the games, the coins and the stars are as
    before.  With an empty name nothing at all has changed; with a
    name and a refused birth date the name is already in the profile
    in memory, and the next save_progress writes it to the file. *)
Theorem refused_save s today now w s' w' :
  _validate_and_save s today now w = (Ok (false, s'), w') ->
  s' = s /\
  save_file w' = save_file w /\ save_count w' = save_count w /\
  birth_date (data w') = birth_date (data w) /\
  difficulty_settings (data w') = difficulty_settings (data w) /\
  games (data w') = games (data w) /\
  total_coins (data w') = total_coins (data w) /\
  total_stars (data w') = total_stars (data w) /\
  (temp_name s = "" -> w' = w) /\
  (temp_name s <> "" ->
   player_name (data w') = Some (temp_name s) /\
   forall later,
     exists p, save_file (snd (save_progress later w')) = FileJson p /\
               player_name p = Some (temp_name s)).
Proof.
  rewrite _validate_and_save_run.
  destruct (String.eqb (temp_name s) "") eqn:Hname.
  - apply String.eqb_eq in Hname. intros [= <- <-]. split_and!; done.
  - apply String.eqb_neq in Hname. cbn zeta.
    destruct (birth_fields_filled s); [|discriminate].
    destruct (checked_birth_date _ _ _ _) as [[text|]|e]; [discriminate| |discriminate].
    intros [= <- <-]. cbn. split_and!; try done. intros _.
    split; [done|]. intros later. eexists. rewrite save_progress_run. cbn.
    split; reflexivity.
Qed.

(** A child born on 17 May 2022, on 1 November 2023: 18 months. *)
Lemma refused_save_witness :
  _validate_and_save (sample_screen "2022") sample_today 7 first_version_world
  = (Ok (false, sample_screen "2022"),
     snd (_validate_and_save (sample_screen "2022") sample_today 7 first_version_world)) /\
  save_count (snd (_validate_and_save (sample_screen "2022") sample_today 7
                     first_version_world)) = 0%nat /\
  birth_date (data (snd (_validate_and_save (sample_screen "2022") sample_today 7
                           first_version_world))) = None.
Proof.
  assert (H : _validate_and_save (sample_screen "2022") sample_today 7 first_version_world
              = (Ok (false, sample_screen "2022"),
                 snd (_validate_and_save (sample_screen "2022") sample_today 7
                        first_version_world)))
    by (vm_compute; reflexivity).
  split; [exact H|].
  destruct (refused_save _ _ _ _ _ _ H) as (_ & _ & Hcount & Hbirth & _).
  split; [exact Hcount | exact Hbirth].
Defined.

(** X25: a birth field beyond the range of a C int (and within the
    digit limit of int).  datetime.date then raises OverflowError,
    which the except ValueError of _validate_and_save does not catch:
    the call raises, after the name has been put into the profile in
    memory; nothing is written. *)
Theorem save_overflow_escapes s today now w y m d :
  fields_within_limit s ->
  temp_name s <> "" ->
  birth_fields_filled s = true ->
  int_of_string (temp_birth_year s) = Some y ->
  int_of_string (temp_birth_month s) = Some m ->
  int_of_string (temp_birth_day s) = Some d ->
  fits_c_int y && fits_c_int m && fits_c_int d = false ->
  _validate_and_save s today now w
  = (Raise OverflowError, with_data (with_player_name (temp_name s) (data w)) w).
Proof.
  intros _ Hname Hfilled Hy Hm Hd Hfit. rewrite _validate_and_save_run.
  apply String.eqb_neq in Hname. rewrite Hname, Hfilled. cbn zeta.
  unfold checked_birth_date, date_of. by rewrite Hy, Hm, Hd, Hfit.
Qed.

(** A year of eleven digits. *)
Lemma save_overflow_escapes_witness :
  fields_within_limit (sample_screen "99999999999") /\
  temp_name (sample_screen "99999999999") <> "" /\
  birth_fields_filled (sample_screen "99999999999") = true /\
  int_of_string "99999999999" = Some 99999999999 /\
  int_of_string "5" = Some 5 /\
  int_of_string "17" = Some 17 /\
  fits_c_int 99999999999 && fits_c_int 5 && fits_c_int 17 = false /\
  fst (_validate_and_save (sample_screen "99999999999") sample_today 7 first_version_world)
  = Raise OverflowError.
Proof.
  assert (Hlim : fields_within_limit (sample_screen "99999999999"))
    by (unfold fields_within_limit; cbn; lia).
  assert (Hname : temp_name (sample_screen "99999999999") <> "") by discriminate.
  split; [exact Hlim|]. split; [exact Hname|]. split; [reflexivity|].
  split; [reflexivity|]. split; [reflexivity|]. split; [reflexivity|].
  split; [reflexivity|].
  rewrite (save_overflow_escapes (sample_screen "99999999999") sample_today 7
             first_version_world 99999999999 5 17
             Hlim Hname eq_refl eq_refl eq_refl eq_refl eq_refl).
  reflexivity.
Defined.
